(** * Multi-system personality conversion engine: a shallow embedding

    The development follows the TypeScript sources

      - [src/lib/personality-engine.ts]  (class [PersonalityEngine])
      - [src/lib/mbti-converter.ts]      (class [MBTIConverter])
      - [src/lib/hexaco-calculator.ts]   (class [HEXACOCalculator])
      - the cross-system validator       (class [CrossSystemValidator])
      - the Dark Triad calculator        (class [DarkTriadCalculator])
      - [src/types/personality.ts]       (the profile interfaces)

    Every class of static methods becomes a Rocq module of the same name
    and every method a definition of the same name.

    Numbers.  A JavaScript [number] is modelled by the type [JS.value]:
    a finite number is an exact rational ([Num q]); [NaN] and the
    [undefined] obtained by reading an absent property are kept as
    separate constructors, because the validation of the input decides on
    them.  Rounding of IEEE doubles, overflow and infinities are not
    modelled: arithmetic on finite numbers is exact, as in the data model
    of the specification ("real numbers constrained to a closed
    interval"). *)

From Stdlib Require Import QArith Qminmax Qabs Qround Lqa.
From Stdlib Require Import ZArith NArith List String Ascii Bool Arith Lia.
Import ListNotations.

Open Scope Q_scope.

(* ================================================================== *)
(** * JavaScript numbers and the operations the engine uses *)
(* ================================================================== *)

Module JS.

Inductive value : Type :=
| Num (q : Q)     (* a finite number, taken exactly *)
| NaN             (* not-a-number *)
| Undefined.      (* the result of reading an absent property *)

(** Binary arithmetic: [ToNumber undefined] is [NaN], and [NaN] is
    absorbing. *)
Definition lift2 (f : Q -> Q -> Q) (x y : value) : value :=
  match x, y with
  | Num a, Num b => Num (f a b)
  | _, _ => NaN
  end.

Definition add : value -> value -> value := lift2 Qplus.
Definition sub : value -> value -> value := lift2 Qminus.
Definition mul : value -> value -> value := lift2 Qmult.

(** [x / y].  The divisors of this program are the literals 3 and 4 and
    the length of a five-element array; [0/0] is [NaN], a non-zero
    number over zero (an infinity in JavaScript) is outside the model
    and is mapped to [NaN] as well. *)
Definition div (x y : value) : value :=
  match x, y with
  | Num a, Num b => if Qeq_bool b 0 then NaN else Num (a / b)
  | _, _ => NaN
  end.

(** Relational operators: any comparison with [NaN] or [undefined]
    is [false]. *)
Definition le (x y : value) : bool :=
  match x, y with
  | Num a, Num b => Qle_bool a b
  | _, _ => false
  end.

Definition lt (x y : value) : bool :=
  match x, y with
  | Num a, Num b => negb (Qle_bool b a)
  | _, _ => false
  end.

Definition ge (x y : value) : bool := le y x.
Definition gt (x y : value) : bool := lt y x.

Definition Math_abs (x : value) : value :=
  match x with
  | Num a => Num (Qabs a)
  | _ => NaN
  end.

Definition Math_min : value -> value -> value := lift2 Qmin.
Definition Math_max : value -> value -> value := lift2 Qmax.

(** [Math.pow(x, n)] for a literal natural exponent [n]. *)
Definition Math_pow (x : value) (n : N) : value :=
  match x with
  | Num a => Num (a ^ Z.of_N n)
  | _ => NaN
  end.

(** [xs.length] as a number. *)
Definition length_of {A : Type} (xs : list A) : value :=
  Num (inject_Z (Z.of_nat (List.length xs))).

(** [xs.reduce(f, init)]. *)
Definition reduce {A B : Type} (f : B -> A -> B) (init : B) (xs : list A) : B :=
  fold_left f xs init.

(** [s.includes(sub)]. *)
Fixpoint includes (sub s : string) : bool :=
  String.prefix sub s ||
  match s with
  | EmptyString => false
  | String _ s' => includes sub s'
  end.

(** [s[i]]: the character at index [i], [undefined] ([None]) past the
    end. *)
Definition char_at (s : string) (i : nat) : option ascii := String.get i s.

(** [===] on the results of [s[i]]. *)
Definition strict_eq (x y : option ascii) : bool :=
  match x, y with
  | Some a, Some b => Ascii.eqb a b
  | None, None => true
  | _, _ => false
  end.

(** Exceptions: a call either returns or throws [new Error(msg)]. *)
Inductive result (A : Type) : Type :=
| Return (a : A)
| Throw (msg : string).
Arguments Return {A} a.
Arguments Throw {A} msg.

(** [x ?? d]: [d] when [x] is [undefined], [x] itself otherwise
    ([NaN] included). *)
Definition nullish (x d : value) : value :=
  match x with
  | Undefined => d
  | _ => x
  end.

(** [typeof x === 'number']: true of every number, [NaN] included. *)
Definition typeof_number (x : value) : bool :=
  match x with
  | Undefined => false
  | _ => true
  end.

(** [Math.round(x)]: the nearest integer, a half rounded up. *)
Definition Math_round (x : value) : value :=
  match x with
  | Num a => Num (inject_Z (Qfloor (a + (1 # 2))))
  | _ => NaN
  end.

(** [s.toLowerCase()] on the letters A to Z; the other characters are
    kept, which is what JavaScript does on ASCII strings. *)
Definition lower_ascii (c : ascii) : ascii :=
  let n := nat_of_ascii c in
  if ((65 <=? n) && (n <=? 90))%nat then ascii_of_nat (n + 32) else c.

Fixpoint toLowerCase (s : string) : string :=
  match s with
  | EmptyString => EmptyString
  | String c s' => String (lower_ascii c) (toLowerCase s')
  end.

(** The property names an object literal inherits from
    [Object.prototype]. *)
Definition Object_prototype_names : list string :=
  ["constructor"; "__defineGetter__"; "__defineSetter__"; "hasOwnProperty";
   "__lookupGetter__"; "__lookupSetter__"; "isPrototypeOf";
   "propertyIsEnumerable"; "toString"; "valueOf"; "__proto__";
   "toLocaleString"]%string.

(** [obj[key]] on an object literal given by its own properties: the own
    property when there is one, else a member of [Object.prototype],
    else [undefined]. *)
Inductive lookup (A : Type) : Type :=
| Own (a : A)
| Inherited
| Absent.
Arguments Own {A} a.
Arguments Inherited {A}.
Arguments Absent {A}.

Definition get_property {A : Type} (obj : list (string * A)) (key : string) : lookup A :=
  match find (fun kv => String.eqb (fst kv) key) obj with
  | Some kv => Own (snd kv)
  | None =>
      if existsb (String.eqb key) Object_prototype_names then Inherited else Absent
  end.

End JS.

Import JS.
Coercion JS.Num : Q >-> JS.value.

Declare Scope js_scope.
Delimit Scope js_scope with js.
Bind Scope js_scope with JS.value.
Infix "+" := JS.add : js_scope.
Infix "-" := JS.sub : js_scope.
Infix "*" := JS.mul : js_scope.
Infix "/" := JS.div : js_scope.
Infix "<?" := JS.lt (at level 70, no associativity) : js_scope.
Infix ">?" := JS.gt (at level 70, no associativity) : js_scope.
Infix "<=?" := JS.le (at level 70, no associativity) : js_scope.
Infix ">=?" := JS.ge (at level 70, no associativity) : js_scope.

(* ================================================================== *)
(** * The data model ([src/types/personality.ts]) *)
(* ================================================================== *)

Record BigFiveTraits : Type := mkBigFive {
  openness : value;
  conscientiousness : value;
  extraversion : value;
  agreeableness : value;
  neuroticism : value
}.

(** [traits[trait]] for a property name given as a string. *)
Definition prop (traits : BigFiveTraits) (trait : string) : value :=
  if String.eqb trait "openness" then traits.(openness)
  else if String.eqb trait "conscientiousness" then traits.(conscientiousness)
  else if String.eqb trait "extraversion" then traits.(extraversion)
  else if String.eqb trait "agreeableness" then traits.(agreeableness)
  else if String.eqb trait "neuroticism" then traits.(neuroticism)
  else Undefined.

(** [Object.values(bigFive)]: the values of the properties the object
    has, in the order of the interface; an absent property contributes
    nothing.  The object is taken to carry the five properties of the
    interface [BigFiveTraits] and no other; the two consumers (a count
    and a variance) do not depend on the order. *)
Definition Object_values (bigFive : BigFiveTraits) : list value :=
  filter (fun v => match v with Undefined => false | _ => true end)
    [bigFive.(openness); bigFive.(conscientiousness); bigFive.(extraversion);
     bigFive.(agreeableness); bigFive.(neuroticism)].

Record MBTIDimensionScore : Type := mkScore {
  preference : string;
  strength : value
}.

Record MBTIDimensions : Type := mkDimensions {
  EI : MBTIDimensionScore;
  SN : MBTIDimensionScore;
  TF : MBTIDimensionScore;
  JP : MBTIDimensionScore
}.

(** The optional fields of [MBTIProfile] (description, strengths,
    challenges, cognitiveStack) are never set by the converters and are
    left out. *)
Module MBTI.
Record Profile : Type := mk {
  type : string;
  dimensions : MBTIDimensions;
  confidence : value
}.
End MBTI.
Abbreviation MBTIProfile := MBTI.Profile.

(** The sixteen members of the union type [MBTIType], in the order of
    its declaration. *)
Definition MBTIType_values : list string :=
  ["INTJ"; "INTP"; "ENTJ"; "ENTP";
   "INFJ"; "INFP"; "ENFJ"; "ENFP";
   "ISTJ"; "ISFJ"; "ESTJ"; "ESFJ";
   "ISTP"; "ISFP"; "ESTP"; "ESFP"]%string.

Definition is_MBTIType (s : string) : bool :=
  existsb (String.eqb s) MBTIType_values.

Module HEXACO.
Record Profile : Type := mk {
  honestyHumility : value;
  emotionality : value;
  extraversion : value;
  agreeableness : value;
  conscientiousness : value;
  openness : value;
  confidence : value
}.
End HEXACO.
Abbreviation HEXACOProfile := HEXACO.Profile.

Inductive RiskLevel : Type := LOW | MODERATE | HIGH | EXTREME.

Module DarkTriad.
Record Profile : Type := mk {
  machiavellianism : value;
  narcissism : value;
  psychopathy : value;
  overallDarkness : value;
  riskLevel : RiskLevel;
  confidence : value
}.
End DarkTriad.
Abbreviation DarkTriadProfile := DarkTriad.Profile.

Module TCI.
Record Temperament : Type := mkTemperament {
  noveltySeekingCuriosity : value;
  impulsiveness : value;
  extravagance : value;
  disorderliness : value;
  harmAvoidance : value;
  rewardDependence : value;
  persistence : value
}.
Record Character : Type := mkCharacter {
  selfDirectedness : value;
  cooperativeness : value;
  selfTranscendence : value
}.
Record Profile : Type := mk {
  temperament : Temperament;
  character : Character;
  confidence : value
}.
End TCI.
Abbreviation TCIProfile := TCI.Profile.

(** The object returned by [generateAllSystems]. *)
Record Systems : Type := mkSystems {
  bigFive : BigFiveTraits;
  mbti : MBTIProfile;
  hexaco : HEXACOProfile;
  darkTriad : DarkTriadProfile;
  tci : TCIProfile
}.

(** The object returned by [validateSystemConsistency]. *)
Record ConsistencyResult : Type := mkConsistency {
  isConsistent : bool;
  consistencyScore : value;
  warnings : list string
}.

Open Scope string_scope.
Open Scope list_scope.
Open Scope js_scope.

(* ================================================================== *)
(** * [PersonalityEngine] ([src/lib/personality-engine.ts]) *)
(* ================================================================== *)

Module PersonalityEngine.

(** ** System 1: Big Five *)

Definition requiredTraits : list string :=
  ["openness"; "conscientiousness"; "extraversion"; "agreeableness"; "neuroticism"].

Definition validateBigFive (traits : BigFiveTraits) : bool :=
  forallb (fun trait => (prop traits trait >=? 0) && (prop traits trait <=? 100))
          requiredTraits.

(** ** System 2: MBTI *)

Definition calculateMBTIConfidence (bigFive : BigFiveTraits) : value :=
  let traitClarities :=
    [ Math_abs (bigFive.(extraversion) - 50);
      Math_abs (bigFive.(openness) - 50);
      Math_abs (bigFive.(agreeableness) - 50);
      Math_abs (bigFive.(conscientiousness) - 50) ] in
  let averageClarity := reduce (fun sum clarity => sum + clarity) (Num 0) traitClarities / 4 in
  Math_min 100 ((averageClarity * 2) + 20).

Definition convertBigFiveToMBTI (bigFive : BigFiveTraits) : MBTIProfile :=
  let extraversionScore := bigFive.(extraversion) in
  let EI_ := if extraversionScore >? 50 then "E" else "I" in
  let opennessScore := bigFive.(openness) in
  let SN_ := if opennessScore >? 50 then "N" else "S" in
  let agreeablenessScore := bigFive.(agreeableness) in
  let TF_ := if agreeablenessScore >? 50 then "F" else "T" in
  let conscientiousnessScore := bigFive.(conscientiousness) in
  let JP_ := if conscientiousnessScore >? 50 then "J" else "P" in
  let type := (EI_ ++ SN_ ++ TF_ ++ JP_)%string in
  {| MBTI.type := type;
     MBTI.dimensions :=
       {| EI := {| preference := EI_; strength := Math_abs (extraversionScore - 50) * 2 |};
          SN := {| preference := SN_; strength := Math_abs (opennessScore - 50) * 2 |};
          TF := {| preference := TF_; strength := Math_abs (agreeablenessScore - 50) * 2 |};
          JP := {| preference := JP_; strength := Math_abs (conscientiousnessScore - 50) * 2 |} |};
     MBTI.confidence := calculateMBTIConfidence bigFive |}.

(** ** System 3: HEXACO *)

Definition calculateHonestyHumility (bigFive : BigFiveTraits) : value :=
  let stability := 100 - bigFive.(neuroticism) in
  let honestyBase := (stability + bigFive.(agreeableness) + bigFive.(conscientiousness)) / 3 in
  if bigFive.(agreeableness) <? 20 then Math_max 0 (honestyBase - 30)
  else Math_min 100 honestyBase.

Definition calculateEmotionality (bigFive : BigFiveTraits) : value :=
  let baseEmotionality := bigFive.(neuroticism) in
  let agreeablenessBoost := bigFive.(agreeableness) * 0.2 in
  Math_min 100 (baseEmotionality + agreeablenessBoost).

Definition adjustHEXACOAgreeableness (bigFive : BigFiveTraits) : value :=
  Math_max 0 (bigFive.(agreeableness) - 10).

Definition calculateHEXACOConfidence (bigFive : BigFiveTraits) : value :=
  let extremeScores :=
    filter (fun score => (score <? 20) || (score >? 80)) (Object_values bigFive) in
  Math_min 100 (70 + (length_of extremeScores * 5)).

Definition convertBigFiveToHEXACO (bigFive : BigFiveTraits) : HEXACOProfile :=
  {| HEXACO.honestyHumility := calculateHonestyHumility bigFive;
     HEXACO.emotionality := calculateEmotionality bigFive;
     HEXACO.extraversion := bigFive.(extraversion);
     HEXACO.agreeableness := adjustHEXACOAgreeableness bigFive;
     HEXACO.conscientiousness := bigFive.(conscientiousness);
     HEXACO.openness := bigFive.(openness);
     HEXACO.confidence := calculateHEXACOConfidence bigFive |}.

(** ** System 4: Dark Triad *)

Definition calculateMachiavellianism (bigFive : BigFiveTraits) : value :=
  let lowAgreeableness := 100 - bigFive.(agreeableness) in
  let lowNeuroticism := 100 - bigFive.(neuroticism) in
  let strategicThinking := bigFive.(openness) * 0.3 in
  let machScore := lowAgreeableness * 0.6 + lowNeuroticism * 0.3 + strategicThinking * 0.1 in
  Math_min 100 machScore.

Definition calculateNarcissism (bigFive : BigFiveTraits) : value :=
  let highExtraversion := bigFive.(extraversion) in
  let lowAgreeableness := (100 - bigFive.(agreeableness)) * 0.7 in
  let lowNeuroticism := (100 - bigFive.(neuroticism)) * 0.5 in
  let narcScore := highExtraversion * 0.5 + lowAgreeableness * 0.3 + lowNeuroticism * 0.2 in
  Math_min 100 narcScore.

Definition calculatePsychopathy (bigFive : BigFiveTraits) : value :=
  let veryLowAgreeableness := (100 - bigFive.(agreeableness)) * 0.8 in
  let lowNeuroticism := (100 - bigFive.(neuroticism)) * 0.4 in
  let lowConscientiousness := (100 - bigFive.(conscientiousness)) * 0.3 in
  let psychScore :=
    veryLowAgreeableness * 0.6 + lowNeuroticism * 0.25 + lowConscientiousness * 0.15 in
  Math_min 100 psychScore.

Definition calculateDarkTriadConfidence (bigFive : BigFiveTraits) : value :=
  let antiSocialIndicators : list value :=
    [ if bigFive.(agreeableness) <? 30 then Num 20 else Num 0;
      if bigFive.(neuroticism) <? 30 then Num 15 else Num 0;
      if bigFive.(conscientiousness) <? 30 then Num 10 else Num 0 ] in
  let baseConfidence : value := 50 in
  let bonusConfidence := reduce (fun sum bonus => sum + bonus) (Num 0) antiSocialIndicators in
  Math_min 100 (baseConfidence + bonusConfidence).

Definition convertBigFiveToDarkTriad (bigFive : BigFiveTraits) : DarkTriadProfile :=
  {| DarkTriad.machiavellianism := calculateMachiavellianism bigFive;
     DarkTriad.narcissism := calculateNarcissism bigFive;
     DarkTriad.psychopathy := calculatePsychopathy bigFive;
     DarkTriad.overallDarkness := 0;
     DarkTriad.riskLevel := LOW;
     DarkTriad.confidence := calculateDarkTriadConfidence bigFive |}.

(** ** System 5: TCI *)

Definition calculateNoveltySeekingCuriosity (bigFive : BigFiveTraits) : value :=
  bigFive.(openness) * 0.7 + bigFive.(extraversion) * 0.3.

Definition calculateImpulsiveness (bigFive : BigFiveTraits) : value :=
  (100 - bigFive.(conscientiousness)) * 0.8 + bigFive.(neuroticism) * 0.2.

Definition calculateExtravagance (bigFive : BigFiveTraits) : value :=
  bigFive.(extraversion) * 0.6 + (100 - bigFive.(conscientiousness)) * 0.4.

Definition calculateDisorderliness (bigFive : BigFiveTraits) : value :=
  100 - bigFive.(conscientiousness).

Definition calculateHarmAvoidance (bigFive : BigFiveTraits) : value :=
  bigFive.(neuroticism) * 0.7 + (100 - bigFive.(extraversion)) * 0.3.

Definition calculateRewardDependence (bigFive : BigFiveTraits) : value :=
  bigFive.(extraversion) * 0.5 + bigFive.(agreeableness) * 0.5.

Definition calculatePersistence (bigFive : BigFiveTraits) : value :=
  bigFive.(conscientiousness) * 0.8 + (100 - bigFive.(neuroticism)) * 0.2.

Definition calculateSelfDirectedness (bigFive : BigFiveTraits) : value :=
  bigFive.(conscientiousness) * 0.6 + (100 - bigFive.(neuroticism)) * 0.4.

Definition calculateCooperativeness (bigFive : BigFiveTraits) : value :=
  bigFive.(agreeableness) * 0.8 + (100 - bigFive.(neuroticism)) * 0.2.

Definition calculateSelfTranscendence (bigFive : BigFiveTraits) : value :=
  bigFive.(openness) * 0.6 + bigFive.(agreeableness) * 0.4.

Definition calculateVariance (values : list value) : value :=
  let mean := reduce (fun sum val => sum + val) (Num 0) values / length_of values in
  let squaredDiffs := map (fun val => Math_pow (val - mean) 2%N) values in
  reduce (fun sum diff => sum + diff) (Num 0) squaredDiffs / length_of values.

Definition calculateTCIConfidence (bigFive : BigFiveTraits) : value :=
  let traits := Object_values bigFive in
  let variance := calculateVariance traits in
  Math_max 60 (100 - variance).

Definition convertBigFiveToTCI (bigFive : BigFiveTraits) : TCIProfile :=
  {| TCI.temperament :=
       {| TCI.noveltySeekingCuriosity := calculateNoveltySeekingCuriosity bigFive;
          TCI.impulsiveness := calculateImpulsiveness bigFive;
          TCI.extravagance := calculateExtravagance bigFive;
          TCI.disorderliness := calculateDisorderliness bigFive;
          TCI.harmAvoidance := calculateHarmAvoidance bigFive;
          TCI.rewardDependence := calculateRewardDependence bigFive;
          TCI.persistence := calculatePersistence bigFive |};
     TCI.character :=
       {| TCI.selfDirectedness := calculateSelfDirectedness bigFive;
          TCI.cooperativeness := calculateCooperativeness bigFive;
          TCI.selfTranscendence := calculateSelfTranscendence bigFive |};
     TCI.confidence := calculateTCIConfidence bigFive |}.

(** ** Unified orchestration *)

Definition generateAllSystems (bigFive : BigFiveTraits) : result Systems :=
  if negb (validateBigFive bigFive) then
    Throw "Invalid Big Five traits provided"
  else
    Return {| bigFive := bigFive;
              mbti := convertBigFiveToMBTI bigFive;
              hexaco := convertBigFiveToHEXACO bigFive;
              darkTriad := convertBigFiveToDarkTriad bigFive;
              tci := convertBigFiveToTCI bigFive |}.

Definition warningA : string := "MBTI extraversion doesn't match Big Five extraversion".
Definition warningB : string := "High honesty-humility conflicts with elevated dark triad scores".
Definition warningC : string := "High self-directedness conflicts with high impulsiveness".

(** The two mutable locals [warnings] and [consistencyScore] are
    threaded through the three [if] statements as a pair. *)
Definition validateSystemConsistency (systems : Systems) : ConsistencyResult :=
  let warnings : list string := [] in
  let consistencyScore : value := 100 in
  let mbtiExtraversion := includes "E" systems.(mbti).(MBTI.type) in
  let bigFiveExtraversion := systems.(bigFive).(extraversion) >? 50 in
  let '(warnings, consistencyScore) :=
    if negb (Bool.eqb mbtiExtraversion bigFiveExtraversion)
    then (warnings ++ [warningA], consistencyScore - 10)
    else (warnings, consistencyScore) in
  let hexacoHonesty := systems.(hexaco).(HEXACO.honestyHumility) in
  let darkTriadScore :=
    (systems.(darkTriad).(DarkTriad.machiavellianism)
     + systems.(darkTriad).(DarkTriad.narcissism)
     + systems.(darkTriad).(DarkTriad.psychopathy)) / 3 in
  let '(warnings, consistencyScore) :=
    if (hexacoHonesty >? 70) && (darkTriadScore >? 50)
    then (warnings ++ [warningB], consistencyScore - 15)
    else (warnings, consistencyScore) in
  let tciSelfDirectedness := systems.(tci).(TCI.character).(TCI.selfDirectedness) in
  let tciImpulsiveness := systems.(tci).(TCI.temperament).(TCI.impulsiveness) in
  let '(warnings, consistencyScore) :=
    if (tciSelfDirectedness >? 70) && (tciImpulsiveness >? 70)
    then (warnings ++ [warningC], consistencyScore - 10)
    else (warnings, consistencyScore) in
  {| isConsistent := Nat.eqb (List.length warnings) 0;
     consistencyScore := Math_max 0 consistencyScore;
     warnings := warnings |}.

(** ** Recommended systems *)

(** The own properties of the object literal [recommendations]. *)
Definition recommendations : list (string * list string) :=
  [ ("hero", ["MBTI"; "TCI"]);
    ("villain", ["HEXACO"; "DARK_TRIAD"]);
    ("antihero", ["DARK_TRIAD"; "HEXACO"; "TCI"]);
    ("mentor", ["TCI"; "MBTI"]);
    ("comic_relief", ["MBTI"; "BIG_FIVE"]);
    ("love_interest", ["MBTI"; "TCI"]);
    ("antagonist", ["HEXACO"; "DARK_TRIAD"]);
    ("sidekick", ["MBTI"; "BIG_FIVE"]);
    ("complex_character", ["HEXACO"; "DARK_TRIAD"; "TCI"]) ].

(** What the function hands back: an array of system names, or, when the
    key names a member of [Object.prototype], that member (a truthy
    value that is no array). *)
Inductive Recommendation : Type :=
| SystemList (systems : list string)
| PrototypeMember (key : string).

(** [recommendations[characterType.toLowerCase()] || ['BIG_FIVE', 'MBTI']];
    arrays and prototype members are truthy. *)
Definition getRecommendedSystemForCharacterType (characterType : string) : Recommendation :=
  match get_property recommendations (toLowerCase characterType) with
  | Own systems => SystemList systems
  | Inherited => PrototypeMember (toLowerCase characterType)
  | Absent => SystemList ["BIG_FIVE"; "MBTI"]
  end.

End PersonalityEngine.

(* ================================================================== *)
(** * [MBTIConverter] ([src/lib/mbti-converter.ts]) *)
(* ================================================================== *)

Module MBTIConverter.

Definition getConversionConfidence (bigFive : BigFiveTraits) : value :=
  let traitClarities :=
    [ Math_abs (bigFive.(extraversion) - 50);
      Math_abs (bigFive.(openness) - 50);
      Math_abs (bigFive.(agreeableness) - 50);
      Math_abs (bigFive.(conscientiousness) - 50) ] in
  let averageClarity := reduce (fun sum clarity => sum + clarity) (Num 0) traitClarities / 4 in
  Math_min 100 ((averageClarity * 2) + 20).

Definition convertBigFiveToMBTI (bigFive : BigFiveTraits) : MBTIProfile :=
  let EI_ := if bigFive.(extraversion) >? 50 then "E" else "I" in
  let SN_ := if bigFive.(openness) >? 50 then "N" else "S" in
  let TF_ := if bigFive.(agreeableness) >? 50 then "F" else "T" in
  let JP_ := if bigFive.(conscientiousness) >? 50 then "J" else "P" in
  let type := (EI_ ++ SN_ ++ TF_ ++ JP_)%string in
  {| MBTI.type := type;
     MBTI.dimensions :=
       {| EI := {| preference := EI_; strength := Math_abs (bigFive.(extraversion) - 50) * 2 |};
          SN := {| preference := SN_; strength := Math_abs (bigFive.(openness) - 50) * 2 |};
          TF := {| preference := TF_; strength := Math_abs (bigFive.(agreeableness) - 50) * 2 |};
          JP := {| preference := JP_;
                   strength := Math_abs (bigFive.(conscientiousness) - 50) * 2 |} |};
     MBTI.confidence := getConversionConfidence bigFive |}.

(** The result is a [Partial<BigFiveTraits>]: neuroticism is not set. *)
Definition convertMBTIToBigFive (mbtiType : string) : BigFiveTraits :=
  {| extraversion := if strict_eq (char_at mbtiType 0) (Some "E"%char) then 75 else 25;
     openness := if strict_eq (char_at mbtiType 1) (Some "N"%char) then 75 else 25;
     agreeableness := if strict_eq (char_at mbtiType 2) (Some "F"%char) then 75 else 25;
     conscientiousness := if strict_eq (char_at mbtiType 3) (Some "J"%char) then 75 else 25;
     neuroticism := Undefined |}.

End MBTIConverter.

(* ================================================================== *)
(** * [HEXACOCalculator] ([src/lib/hexaco-calculator.ts]) *)
(* ================================================================== *)

Module HEXACOCalculator.

Definition calculateHonestyHumility (bigFive : BigFiveTraits) : value :=
  let stability := 100 - bigFive.(neuroticism) in
  let honestyBase := (stability + bigFive.(agreeableness) + bigFive.(conscientiousness)) / 3 in
  if bigFive.(agreeableness) <? 20 then Math_max 0 (honestyBase - 30)
  else Math_min 100 honestyBase.

Definition mapEmotionality (bigFive : BigFiveTraits) : value :=
  let baseEmotionality := bigFive.(neuroticism) in
  let agreeablenessBoost := bigFive.(agreeableness) * 0.2 in
  Math_min 100 (baseEmotionality + agreeablenessBoost).

Definition adjustAgreeableness (bigFive : BigFiveTraits) : value :=
  Math_max 0 (bigFive.(agreeableness) - 10).

(** [typeof score === 'number'] holds of every number, [NaN]
    included. *)
Definition is_number (score : value) : bool :=
  match score with
  | Undefined => false
  | _ => true
  end.

Definition getConfidence (bigFive : BigFiveTraits) : value :=
  let extremeScores :=
    filter (fun score => is_number score && ((score <? 20) || (score >? 80)))
           (Object_values bigFive) in
  Math_min 100 (70 + (length_of extremeScores * 5)).

Definition calculateFromBigFive (bigFive : BigFiveTraits) : HEXACOProfile :=
  {| HEXACO.honestyHumility := calculateHonestyHumility bigFive;
     HEXACO.emotionality := mapEmotionality bigFive;
     HEXACO.extraversion := bigFive.(extraversion);
     HEXACO.agreeableness := adjustAgreeableness bigFive;
     HEXACO.conscientiousness := bigFive.(conscientiousness);
     HEXACO.openness := bigFive.(openness);
     HEXACO.confidence := getConfidence bigFive |}.

End HEXACOCalculator.

(* ================================================================== *)
(** * [CrossSystemValidator] *)
(* ================================================================== *)

Module CrossSystemValidator.

(** The [for] loop over [i = 0 .. 3] is a left fold over the indices,
    carrying the local [matchCount]. *)
Definition calculateMBTIConsistency (bigFive : BigFiveTraits) (mbti : MBTIProfile) : value :=
  let derivedMBTI := MBTIConverter.convertBigFiveToMBTI bigFive in
  let matchCount : value := 0 in
  let actual := mbti.(MBTI.type) in
  let derived := derivedMBTI.(MBTI.type) in
  let matchCount :=
    fold_left
      (fun matchCount i =>
         if strict_eq (char_at actual i) (char_at derived i)
         then matchCount + 1 else matchCount)
      (seq 0 4) matchCount in
  (matchCount / 4) * 100.

(** [hexaco[trait]] for a property name given as a string. *)
Definition hexaco_prop (hexaco : HEXACOProfile) (trait : string) : value :=
  if String.eqb trait "honestyHumility" then hexaco.(HEXACO.honestyHumility)
  else if String.eqb trait "emotionality" then hexaco.(HEXACO.emotionality)
  else if String.eqb trait "extraversion" then hexaco.(HEXACO.extraversion)
  else if String.eqb trait "agreeableness" then hexaco.(HEXACO.agreeableness)
  else if String.eqb trait "conscientiousness" then hexaco.(HEXACO.conscientiousness)
  else if String.eqb trait "openness" then hexaco.(HEXACO.openness)
  else if String.eqb trait "confidence" then hexaco.(HEXACO.confidence)
  else Undefined.

(** The [forEach] over the four mapped traits is a left fold carrying
    the local [total]. *)
Definition calculateHEXACOConsistency (bigFive : BigFiveTraits) (hexaco : HEXACOProfile)
  : value :=
  let traits := ["extraversion"; "agreeableness"; "conscientiousness"; "openness"] in
  let total : value := 0 in
  let total :=
    fold_left
      (fun total trait =>
         let diff := Math_abs (nullish (prop bigFive trait) 0
                               - nullish (hexaco_prop hexaco trait) 0) in
         total + (100 - diff))
      traits total in
  total / length_of traits.


End CrossSystemValidator.

(* ================================================================== *)
(** * [DarkTriadCalculator] *)
(* ================================================================== *)

Module DarkTriadCalculator.

Definition calculateMachiavellianism (hexaco : HEXACOProfile) : value :=
  Math_max 0 (100 - (hexaco.(HEXACO.honestyHumility) * 0.8
                     + hexaco.(HEXACO.agreeableness) * 0.2)).

Definition calculateNarcissism (hexaco : HEXACOProfile) : value :=
  Math_max 0 ((100 - hexaco.(HEXACO.honestyHumility)) * 0.7
              + hexaco.(HEXACO.extraversion) * 0.3).

Definition calculatePsychopathy (hexaco : HEXACOProfile) : value :=
  Math_max 0 (100 - (hexaco.(HEXACO.honestyHumility) * 0.6
                     + hexaco.(HEXACO.emotionality) * 0.4)).

Definition calculateFromHEXACO (hexaco : HEXACOProfile) : DarkTriadProfile :=
  {| DarkTriad.machiavellianism := calculateMachiavellianism hexaco;
     DarkTriad.narcissism := calculateNarcissism hexaco;
     DarkTriad.psychopathy := calculatePsychopathy hexaco;
     DarkTriad.overallDarkness := 0;
     DarkTriad.riskLevel := LOW;
     DarkTriad.confidence := 80 |}.

End DarkTriadCalculator.

(* ================================================================== *)
(** * [ContentWarningSystem] *)
(* ================================================================== *)

Module ContentWarningSystem.

Record ContentWarning : Type := mk {
  warningLevel : string;
  message : string;
  ageRestriction : value
}.

Definition evaluateContent (darkTriad : DarkTriadProfile) : ContentWarning :=
  let totalScore :=
    darkTriad.(DarkTriad.machiavellianism) + darkTriad.(DarkTriad.narcissism)
    + darkTriad.(DarkTriad.psychopathy) in
  if totalScore >? 240 then
    {| warningLevel := "high";
       message := "This character exhibits extreme dark personality traits";
       ageRestriction := 18 |}
  else if totalScore >? 180 then
    {| warningLevel := "medium";
       message := "This character has strong dark personality traits";
       ageRestriction := 16 |}
  else if totalScore >? 120 then
    {| warningLevel := "low";
       message := "This character has some dark personality traits";
       ageRestriction := 13 |}
  else
    {| warningLevel := "none";
       message := "No significant dark personality traits detected";
       ageRestriction := 0 |}.

End ContentWarningSystem.

(* ================================================================== *)
(** * [HonestyHumilityProcessor] ([src/lib/hexaco-calculator.ts]) *)
(* ================================================================== *)

Module HonestyHumilityProcessor.

Definition detectVillainPotential (hexaco : HEXACOProfile) : bool :=
  hexaco.(HEXACO.honestyHumility) <? 30.

Definition suggestAntagonistArchetype (hexaco : HEXACOProfile) : string :=
  if (hexaco.(HEXACO.honestyHumility) <? 20) && (hexaco.(HEXACO.emotionality) <? 30)
  then "Calculating Mastermind"
  else if (hexaco.(HEXACO.honestyHumility) <? 30) && (hexaco.(HEXACO.extraversion) >? 70)
  then "Charismatic Manipulator"
  else if (hexaco.(HEXACO.honestyHumility) <? 30) && (hexaco.(HEXACO.agreeableness) <? 30)
  then "Ruthless Opportunist"
  else if (hexaco.(HEXACO.honestyHumility) <? 30) && (hexaco.(HEXACO.emotionality) >? 70)
  then "Vengeful Schemer"
  else "Morally Ambiguous Character".

(** The local array [behaviors] is threaded through the four [if]
    statements. *)
Definition predictManipulationBehavior (hexaco : HEXACOProfile) : list string :=
  let behaviors : list string := [] in
  let behaviors :=
    if hexaco.(HEXACO.honestyHumility) <? 30
    then (behaviors ++ ["Deceptive tactics"]) ++ ["Exploits trust for personal gain"]
    else behaviors in
  let behaviors :=
    if hexaco.(HEXACO.agreeableness) <? 30
    then behaviors ++ ["Lack of empathy in social interactions"]
    else behaviors in
  let behaviors :=
    if hexaco.(HEXACO.extraversion) >? 70
    then behaviors ++ ["Uses charm to influence others"]
    else behaviors in
  let behaviors :=
    if hexaco.(HEXACO.emotionality) <? 30
    then behaviors ++ ["Cold, calculated decision-making"]
    else behaviors in
  behaviors.

End HonestyHumilityProcessor.

(* ================================================================== *)
(** * [TemperamentEngine] and [CharacterEngine] ([src/lib/tci-engines.ts]) *)
(* ================================================================== *)

Module TemperamentEngine.

Definition calculateNoveltySeekingCuriosity (bigFive : BigFiveTraits) : value :=
  bigFive.(openness) * 0.7 + bigFive.(extraversion) * 0.3.

Definition calculateImpulsiveness (bigFive : BigFiveTraits) : value :=
  (100 - bigFive.(conscientiousness)) * 0.8 + bigFive.(neuroticism) * 0.2.

Definition calculateExtravagance (bigFive : BigFiveTraits) : value :=
  bigFive.(extraversion) * 0.6 + (100 - bigFive.(conscientiousness)) * 0.4.

Definition calculateDisorderliness (bigFive : BigFiveTraits) : value :=
  100 - bigFive.(conscientiousness).

Definition calculateHarmAvoidance (bigFive : BigFiveTraits) : value :=
  bigFive.(neuroticism) * 0.7 + (100 - bigFive.(extraversion)) * 0.3.

Definition calculateRewardDependence (bigFive : BigFiveTraits) : value :=
  bigFive.(extraversion) * 0.5 + bigFive.(agreeableness) * 0.5.

Definition calculatePersistence (bigFive : BigFiveTraits) : value :=
  bigFive.(conscientiousness) * 0.8 + (100 - bigFive.(neuroticism)) * 0.2.

Definition calculateFromBigFive (bigFive : BigFiveTraits) : TCI.Temperament :=
  {| TCI.noveltySeekingCuriosity := calculateNoveltySeekingCuriosity bigFive;
     TCI.impulsiveness := calculateImpulsiveness bigFive;
     TCI.extravagance := calculateExtravagance bigFive;
     TCI.disorderliness := calculateDisorderliness bigFive;
     TCI.harmAvoidance := calculateHarmAvoidance bigFive;
     TCI.rewardDependence := calculateRewardDependence bigFive;
     TCI.persistence := calculatePersistence bigFive |}.

End TemperamentEngine.

Module CharacterEngine.

Definition calculateSelfDirectedness (bigFive : BigFiveTraits) : value :=
  bigFive.(conscientiousness) * 0.6 + (100 - bigFive.(neuroticism)) * 0.4.

Definition calculateCooperativeness (bigFive : BigFiveTraits) : value :=
  bigFive.(agreeableness) * 0.8 + (100 - bigFive.(neuroticism)) * 0.2.

Definition calculateSelfTranscendence (bigFive : BigFiveTraits) : value :=
  bigFive.(openness) * 0.6 + bigFive.(agreeableness) * 0.4.

Definition calculateFromBigFive (bigFive : BigFiveTraits) : TCI.Character :=
  {| TCI.selfDirectedness := calculateSelfDirectedness bigFive;
     TCI.cooperativeness := calculateCooperativeness bigFive;
     TCI.selfTranscendence := calculateSelfTranscendence bigFive |}.

End CharacterEngine.

(* ================================================================== *)
(** * [CulturalAdapter] ([src/lib/personality-engine.ts]) *)
(* ================================================================== *)

Module CulturalAdapter.

(** [profile] has type [any] in the source; the two rules only fire for
    the system [BIG_FIVE], so the function is modelled on Big Five
    objects.  [{ ...profile }] is a copy; the two assignments replace one
    field each. *)
Definition adaptProfile (profile : BigFiveTraits) (system culture : string)
  : BigFiveTraits :=
  let adapted := profile in
  let adapted :=
    if String.eqb system "BIG_FIVE" && String.eqb culture "JP"
       && typeof_number adapted.(conscientiousness)
    then {| openness := adapted.(openness);
            conscientiousness :=
              Math_min 100 (Math_round (adapted.(conscientiousness) * 1.1));
            extraversion := adapted.(extraversion);
            agreeableness := adapted.(agreeableness);
            neuroticism := adapted.(neuroticism) |}
    else adapted in
  let adapted :=
    if String.eqb system "BIG_FIVE" && String.eqb culture "US"
       && typeof_number adapted.(extraversion)
    then {| openness := adapted.(openness);
            conscientiousness := adapted.(conscientiousness);
            extraversion := Math_min 100 (Math_round (adapted.(extraversion) * 1.1));
            agreeableness := adapted.(agreeableness);
            neuroticism := adapted.(neuroticism) |}
    else adapted in
  adapted.

End CulturalAdapter.

(* ================================================================== *)
(** * [ResearchValidator] ([src/lib/personality-engine.ts]) *)
(* ================================================================== *)

Module ResearchValidator.

(** [profile] has type [any] in the source; it is modelled as one of the
    four profile objects of the data model. *)
Inductive profile : Type :=
| BigFiveObject (t : BigFiveTraits)
| HEXACOObject (h : HEXACOProfile)
| DarkTriadObject (d : DarkTriadProfile)
| TCIObject (p : TCIProfile).

Definition darkTriad_prop (d : DarkTriadProfile) (trait : string) : value :=
  if String.eqb trait "machiavellianism" then d.(DarkTriad.machiavellianism)
  else if String.eqb trait "narcissism" then d.(DarkTriad.narcissism)
  else if String.eqb trait "psychopathy" then d.(DarkTriad.psychopathy)
  else if String.eqb trait "overallDarkness" then d.(DarkTriad.overallDarkness)
  else if String.eqb trait "confidence" then d.(DarkTriad.confidence)
  else Undefined.

(** [profile[trait]] as far as the test [typeof value === 'number'] can
    tell: a property that is absent or that holds no number (a string, a
    sub-object) reads as [Undefined]. *)
Definition get (p : profile) (trait : string) : value :=
  match p with
  | BigFiveObject t => prop t trait
  | HEXACOObject h => CrossSystemValidator.hexaco_prop h trait
  | DarkTriadObject d => darkTriad_prop d trait
  | TCIObject p => if String.eqb trait "confidence" then p.(TCI.confidence) else Undefined
  end.

(** [profile.temperament] and [profile.character] with their keys, in
    the order in which the converters build them. *)
Definition temperament_entries (p : profile) : option (list (string * value)) :=
  match p with
  | TCIObject p =>
      Some [ ("noveltySeekingCuriosity", p.(TCI.temperament).(TCI.noveltySeekingCuriosity));
             ("impulsiveness", p.(TCI.temperament).(TCI.impulsiveness));
             ("extravagance", p.(TCI.temperament).(TCI.extravagance));
             ("disorderliness", p.(TCI.temperament).(TCI.disorderliness));
             ("harmAvoidance", p.(TCI.temperament).(TCI.harmAvoidance));
             ("rewardDependence", p.(TCI.temperament).(TCI.rewardDependence));
             ("persistence", p.(TCI.temperament).(TCI.persistence)) ]
  | _ => None
  end.

Definition character_entries (p : profile) : option (list (string * value)) :=
  match p with
  | TCIObject p =>
      Some [ ("selfDirectedness", p.(TCI.character).(TCI.selfDirectedness));
             ("cooperativeness", p.(TCI.character).(TCI.cooperativeness));
             ("selfTranscendence", p.(TCI.character).(TCI.selfTranscendence)) ]
  | _ => None
  end.

Section Rendering.

(** The decimal rendering of a number in a template literal is a
    parameter of the model. *)
Variable numberToString : Q -> string.

Definition render (v : value) : string :=
  match v with
  | Num q => numberToString q
  | NaN => "NaN"
  | Undefined => "undefined"
  end.

(** One round of a [for ... of] loop over trait names: test the value,
    push a warning. *)
Definition check (outlier : value -> bool) (text : string -> value -> string)
    (warnings : list string) (entry : string * value) : list string :=
  let value := snd entry in
  if typeof_number value && outlier value
  then warnings ++ [text (fst entry) value]
  else warnings.

Definition outside (lo hi : Q) (value : value) : bool :=
  (value <? Num lo) || (value >? Num hi).

Definition validateProfile (profile : profile) (system : string) : list string :=
  let warnings : list string := [] in
  if String.eqb system "BIG_FIVE" then
    fold_left
      (check (outside 5 95)
         (fun trait value =>
            "Trait '" ++ trait ++ "' is an outlier (" ++ render value
            ++ "). Typical range is 5-95.")%string)
      (List.map (fun trait => (trait, get profile trait))
         ["openness"; "conscientiousness"; "extraversion"; "agreeableness";
          "neuroticism"])
      warnings
  else if String.eqb system "HEXACO" then
    fold_left
      (check (outside 10 90)
         (fun trait value =>
            "Trait '" ++ trait ++ "' is an outlier (" ++ render value
            ++ "). Typical range is 10-90.")%string)
      (List.map (fun trait => (trait, get profile trait))
         ["honestyHumility"; "emotionality"; "extraversion"; "agreeableness";
          "conscientiousness"; "openness"])
      warnings
  else if String.eqb system "DARK_TRIAD" then
    fold_left
      (check (fun value => value >? 80)
         (fun trait value =>
            "Trait '" ++ trait ++ "' is unusually high (" ++ render value
            ++ "). Typical max is 80.")%string)
      (List.map (fun trait => (trait, get profile trait))
         ["machiavellianism"; "narcissism"; "psychopathy"])
      warnings
  else if String.eqb system "TCI" then
    let warnings :=
      match temperament_entries profile with
      | Some entries =>
          fold_left
            (check (outside 10 90)
               (fun trait value =>
                  "Temperament '" ++ trait ++ "' is an outlier (" ++ render value
                  ++ "). Typical range is 10-90.")%string)
            entries warnings
      | None => warnings
      end in
    let warnings :=
      match character_entries profile with
      | Some entries =>
          fold_left
            (check (outside 10 90)
               (fun trait value =>
                  "Character '" ++ trait ++ "' is an outlier (" ++ render value
                  ++ "). Typical range is 10-90.")%string)
            entries warnings
      | None => warnings
      end in
    warnings
  else warnings.

End Rendering.

End ResearchValidator.

(* ================================================================== *)
(** * Behaviour patterns ([src/lib/trait-processor.ts]) *)
(* ================================================================== *)

(** The interface [CharacterTraits] of [src/types/character.ts]. *)
Module Character.
Record Traits : Type := mk {
  openness : value;
  conscientiousness : value;
  extraversion : value;
  agreeableness : value;
  emotional_stability : value
}.
End Character.
Abbreviation CharacterTraits := Character.Traits.

Module TraitProcessor.

(** The local array [patterns] is threaded through the [if]
    statements. *)
Definition predictBehaviorPatterns (traits : CharacterTraits) : list string :=
  let patterns : list string := [] in
  let patterns :=
    if (traits.(Character.openness) >? 70) && (traits.(Character.extraversion) >? 70)
    then patterns ++ ["Seeks out novel social experiences and enjoys creative group activities."]
    else patterns in
  let patterns :=
    if (traits.(Character.conscientiousness) >? 70) && (traits.(Character.agreeableness) >? 70)
    then patterns ++ ["Highly dependable team player, often takes on responsibility and mediates conflicts."]
    else patterns in
  let patterns :=
    if (traits.(Character.extraversion) <? 30) && (traits.(Character.openness) <? 30)
    then patterns ++ ["Prefers familiar routines and quiet environments, avoids large gatherings and surprises."]
    else patterns in
  let patterns :=
    if (traits.(Character.agreeableness) <? 30) && (traits.(Character.emotional_stability) <? 30)
    then patterns ++ ["May react defensively or critically under stress, prone to interpersonal conflicts."]
    else patterns in
  let patterns :=
    if (traits.(Character.openness) >? 70) && (traits.(Character.conscientiousness) <? 30)
    then patterns ++ ["Has many creative ideas but struggles to follow through or organize them."]
    else patterns in
  let patterns :=
    if (traits.(Character.conscientiousness) >? 70)
       && (traits.(Character.emotional_stability) <? 30)
    then patterns ++ ["Driven to achieve but may become anxious or perfectionistic under pressure."]
    else patterns in
  let patterns :=
    if Nat.eqb (List.length patterns) 0
    then patterns ++ ["Displays a balanced and adaptable set of behaviors, adjusting to different situations as needed."]
    else patterns in
  patterns.

Definition predictConflictSources (a b : CharacterTraits) : list string :=
  let conflicts : list string := [] in
  let conflicts :=
    if Math_abs (a.(Character.openness) - b.(Character.openness)) >? 40
    then conflicts ++ ["Differences in openness may lead to disagreements about trying new things versus sticking to tradition."]
    else conflicts in
  let conflicts :=
    if Math_abs (a.(Character.conscientiousness) - b.(Character.conscientiousness)) >? 40
    then conflicts ++ ["One character may see the other as too rigid or too careless, causing friction in planning or reliability."]
    else conflicts in
  let conflicts :=
    if Math_abs (a.(Character.extraversion) - b.(Character.extraversion)) >? 40
    then conflicts ++ ["Social preferences may clash, with one preferring solitude and the other seeking constant interaction."]
    else conflicts in
  let conflicts :=
    if Math_abs (a.(Character.agreeableness) - b.(Character.agreeableness)) >? 40
    then conflicts ++ ["Disagreements may arise over directness versus harmony, or skepticism versus trust."]
    else conflicts in
  let conflicts :=
    if Math_abs (a.(Character.emotional_stability) - b.(Character.emotional_stability)) >? 40
    then conflicts ++ ["One character may be seen as too sensitive or too stoic, leading to misunderstandings in emotional situations."]
    else conflicts in
  let conflicts :=
    if Nat.eqb (List.length conflicts) 0
    then conflicts ++ ["No major sources of conflict predicted; personalities are likely to be compatible."]
    else conflicts in
  conflicts.

End TraitProcessor.

(* ================================================================== *)
(** * Vocabulary of the statements *)
(* ================================================================== *)

(** [within lo hi v]: [v] is a finite number of the closed interval
    [[lo, hi]]. *)
Definition within (lo hi : Q) (v : value) : Prop :=
  match v with
  | Num q => (lo <= q /\ q <= hi)%Q
  | _ => False
  end.

(** Equality of values up to the representation of a rational. *)
Definition same (x y : value) : Prop :=
  match x, y with
  | Num a, Num b => (a == b)%Q
  | NaN, NaN => True
  | Undefined, Undefined => True
  | _, _ => False
  end.

(** The rational a numeric value stands for (0 for the others). *)
Definition the (v : value) : Q :=
  match v with
  | Num q => q
  | _ => 0%Q
  end.

(** A field that makes the validation of the input fail: it is absent,
    it is not a number, or it is a number outside [[0, 100]]. *)
Definition missing (v : value) : Prop := v = Undefined.
Definition outside_0_100 (v : value) : Prop :=
  match v with
  | Num q => (q < 0 \/ 100 < q)%Q
  | NaN => True
  | Undefined => False
  end.

(** The neutral profile: every trait at 50. *)
Definition neutral : BigFiveTraits := mkBigFive 50 50 50 50 50.

(** The profile of the third scenario of the specification; the two
    traits the scenario leaves open are set to 50. *)
Definition scenario3 : BigFiveTraits := mkBigFive 50 10 50 10 10.

(* ================================================================== *)
(** * What the specification says, in its own words *)
(* ================================================================== *)

(** The coherence rules of the cross-system validator as the
    specification lists them: a rule has a condition, a warning and a
    penalty; the report is obtained by running the rules in the order
    A, B, C from a score of 100 and an empty list of warnings. *)
Module CoherenceRules.

Record rule : Type := mkRule {
  violated : Systems -> bool;
  warning : string;
  penalty : Q
}.

(** The E/I letter of an MBTI type is its first letter. *)
Definition letterEI (systems : Systems) : option ascii :=
  String.get 0 systems.(mbti).(MBTI.type).

Definition saysExtravert (systems : Systems) : bool :=
  match letterEI systems with
  | Some c => Ascii.eqb c "E"%char
  | None => false
  end.

Definition ruleA : rule :=
  {| violated := fun systems =>
       negb (Bool.eqb (saysExtravert systems)
                      (systems.(bigFive).(extraversion) >? 50));
     warning := PersonalityEngine.warningA;
     penalty := 10 |}.

Definition darkTriadMean (systems : Systems) : value :=
  (systems.(darkTriad).(DarkTriad.machiavellianism)
   + systems.(darkTriad).(DarkTriad.narcissism)
   + systems.(darkTriad).(DarkTriad.psychopathy)) / 3.

Definition ruleB : rule :=
  {| violated := fun systems =>
       (systems.(hexaco).(HEXACO.honestyHumility) >? 70)
       && (darkTriadMean systems >? 50);
     warning := PersonalityEngine.warningB;
     penalty := 15 |}.

Definition ruleC : rule :=
  {| violated := fun systems =>
       (systems.(tci).(TCI.character).(TCI.selfDirectedness) >? 70)
       && (systems.(tci).(TCI.temperament).(TCI.impulsiveness) >? 70);
     warning := PersonalityEngine.warningC;
     penalty := 10 |}.

Definition rules : list rule := [ruleA; ruleB; ruleC].

Definition apply_rule (systems : Systems) (acc : value * list string) (r : rule)
  : value * list string :=
  if r.(violated) systems
  then (fst acc - Num r.(penalty), snd acc ++ [r.(warning)])
  else acc.

Definition report (systems : Systems) : ConsistencyResult :=
  let acc := fold_left (apply_rule systems) rules (Num 100, []) in
  {| isConsistent := match snd acc with [] => true | _ :: _ => false end;
     consistencyScore := Math_max 0 (fst acc);
     warnings := snd acc |}.

End CoherenceRules.

(** The number of positions, out of four, at which two type codes carry
    the same letter. *)
Definition same_letter_at (actual derived : string) (i : nat) : bool :=
  match String.get i actual, String.get i derived with
  | Some a, Some d => Ascii.eqb a d
  | _, _ => false
  end.

Definition matching_letters (actual derived : string) : nat :=
  List.length (filter (same_letter_at actual derived) [0; 1; 2; 3]%nat).

(** The direct reading of the honesty-humility rule on rationals. *)
Definition honestyHumility_rule (a c n : Q) : Q :=
  let average := (((100 - n) + a + c) / 3)%Q in
  if Qlt_le_dec a 20 then Qmax 0 (average - 30) else Qmin 100 average.

(** The five required fields of an input, in the order in which the
    validation visits them. *)
Definition fields (t : BigFiveTraits) : list value :=
  [t.(openness); t.(conscientiousness); t.(extraversion);
   t.(agreeableness); t.(neuroticism)].

(** [resolves p i d l]: in the profile [p] the dimension [d] prefers the
    letter [l], and [l] is the letter at index [i] of the type code. *)
Definition resolves (p : MBTIProfile) (i : nat)
    (d : MBTIDimensions -> MBTIDimensionScore) (l : ascii) : Prop :=
  preference (d (MBTI.dimensions p)) = String l EmptyString /\
  String.get i (MBTI.type p) = Some l.

(** Mean and (population) variance of a list of rationals, and the
    number of extreme values (below 20 or above 80) of a list. *)
Definition mean (xs : list Q) : Q :=
  (fold_right Qplus 0 xs / inject_Z (Z.of_nat (List.length xs)))%Q.

Definition variance (xs : list Q) : Q :=
  mean (List.map (fun x => (x - mean xs) ^ 2)%Q xs).

Definition is_extreme (q : Q) : bool :=
  negb (Qle_bool 20 q) || negb (Qle_bool q 80).

Definition extreme_count (xs : list Q) : nat :=
  List.length (filter is_extreme xs).

(** The four dimension strengths of an MBTI profile. *)
Definition strengths (p : MBTIProfile) : list Q :=
  [the (strength (EI (MBTI.dimensions p))); the (strength (SN (MBTI.dimensions p)));
   the (strength (TF (MBTI.dimensions p))); the (strength (JP (MBTI.dimensions p)))].

(** The numeric fields of the four derived profiles. *)
Definition mbti_numbers (p : MBTIProfile) : list value :=
  [strength (EI (MBTI.dimensions p)); strength (SN (MBTI.dimensions p));
   strength (TF (MBTI.dimensions p)); strength (JP (MBTI.dimensions p));
   MBTI.confidence p].

Definition hexaco_numbers (p : HEXACOProfile) : list value :=
  [HEXACO.honestyHumility p; HEXACO.emotionality p; HEXACO.extraversion p;
   HEXACO.agreeableness p; HEXACO.conscientiousness p; HEXACO.openness p;
   HEXACO.confidence p].

Definition darkTriad_scores (p : DarkTriadProfile) : list value :=
  [DarkTriad.machiavellianism p; DarkTriad.narcissism p; DarkTriad.psychopathy p].

Definition darkTriad_numbers (p : DarkTriadProfile) : list value :=
  darkTriad_scores p ++ [DarkTriad.overallDarkness p; DarkTriad.confidence p].

Definition tci_numbers (p : TCIProfile) : list value :=
  [TCI.noveltySeekingCuriosity (TCI.temperament p); TCI.impulsiveness (TCI.temperament p);
   TCI.extravagance (TCI.temperament p); TCI.disorderliness (TCI.temperament p);
   TCI.harmAvoidance (TCI.temperament p); TCI.rewardDependence (TCI.temperament p);
   TCI.persistence (TCI.temperament p);
   TCI.selfDirectedness (TCI.character p); TCI.cooperativeness (TCI.character p);
   TCI.selfTranscendence (TCI.character p);
   TCI.confidence p].

Definition derived_numbers (s : Systems) : list value :=
  mbti_numbers s.(mbti) ++ hexaco_numbers s.(hexaco)
  ++ darkTriad_numbers s.(darkTriad) ++ tci_numbers s.(tci).

(** The sum of the penalties of the rules an input violates, and their
    warnings, in the order of the rules. *)
Definition penalties (systems : Systems) : Q :=
  fold_right Qplus 0
    (List.map CoherenceRules.penalty
       (filter (fun r => CoherenceRules.violated r systems) CoherenceRules.rules)).

Definition raised (systems : Systems) : list string :=
  List.map CoherenceRules.warning
    (filter (fun r => CoherenceRules.violated r systems) CoherenceRules.rules).

(** A profile on which rule A alone fires: extraversion 90 with a
    supplied type that starts with I. *)
Definition scenario4 : Systems :=
  {| bigFive := mkBigFive 50 50 90 50 50;
     mbti := {| MBTI.type := "ISTP";
                MBTI.dimensions :=
                  MBTI.dimensions (PersonalityEngine.convertBigFiveToMBTI neutral);
                MBTI.confidence := 20 |};
     hexaco := PersonalityEngine.convertBigFiveToHEXACO neutral;
     darkTriad := PersonalityEngine.convertBigFiveToDarkTriad neutral;
     tci := PersonalityEngine.convertBigFiveToTCI neutral |}.

(* ================================================================== *)
(** * Vocabulary of the further statements *)
(* ================================================================== *)

(** The four preferred poles of an MBTI profile, concatenated in the
    order EI, SN, TF, JP. *)
Definition preference_code (p : MBTIProfile) : string :=
  (preference (EI (MBTI.dimensions p)) ++ preference (SN (MBTI.dimensions p))
   ++ preference (TF (MBTI.dimensions p)) ++ preference (JP (MBTI.dimensions p)))%string.

(** A valid profile with high honesty-humility and elevated Dark Triad
    scores. *)
Definition principled_schemer : BigFiveTraits := mkBigFive 100 100 100 20 0.

(** A field that is absent, or a number of [[0, 100]]. *)
Definition absent_or_within (v : value) : Prop :=
  v = Undefined \/ within 0 100 v.

(** The sum of the three Dark Triad scores, as a rational. *)
Definition darkTriad_total (d : DarkTriadProfile) : Q :=
  (the d.(DarkTriad.machiavellianism) + the d.(DarkTriad.narcissism)
   + the d.(DarkTriad.psychopathy))%Q.

(** The three scores of a Dark Triad profile are numbers. *)
Definition numeric_scores (d : DarkTriadProfile) : Prop :=
  Forall (fun v => exists q, v = Num q) (darkTriad_scores d).

(** The five names [suggestAntagonistArchetype] can return. *)
Definition archetype_names : list string :=
  ["Calculating Mastermind"; "Charismatic Manipulator"; "Ruthless Opportunist";
   "Vengeful Schemer"; "Morally Ambiguous Character"].

(** The members of the union type [PersonalitySystemType]. *)
Definition PersonalitySystemType_values : list string :=
  ["BIG_FIVE"; "MBTI"; "HEXACO"; "DARK_TRIAD"; "TCI"].

(** A string of ASCII characters. *)
Definition is_ascii_string (s : string) : bool :=
  forallb (fun ch => (nat_of_ascii ch <? 128)%nat) (list_ascii_of_string s).

(** A value that is an integer. *)
Definition is_integer (v : value) : Prop :=
  exists z : Z, v = Num (inject_Z z).

(** The test of the research validator on a Big Five trait: a number
    below 5 or above 95. *)
Definition is_outlier (v : value) : bool :=
  typeof_number v && ResearchValidator.outside 5 95 v.

(** The fallback entries of the two predictors of [trait-processor]. *)
Definition balanced_pattern : string :=
  "Displays a balanced and adaptable set of behaviors, adjusting to different situations as needed.".

Definition no_conflict : string :=
  "No major sources of conflict predicted; personalities are likely to be compatible.".

(** Boolean checks on lists of strings, for proofs by evaluation. *)
Fixpoint distinct (l : list string) : bool :=
  match l with
  | [] => true
  | x :: l' => negb (existsb (String.eqb x) l') && distinct l'
  end.

Definition patterns_ok (l : list string) : bool :=
  ((1 <=? List.length l) && (List.length l <=? 3))%nat && distinct l
  && Bool.eqb (existsb (String.eqb balanced_pattern) l)
              (match l with
               | [x] => String.eqb x balanced_pattern
               | _ => false
               end).

(* ================================================================== *)
(** * Auxiliary facts on rationals and values *)
(* ================================================================== *)

Lemma Qle_bool_false (x y : Q) : Qle_bool x y = false -> (y < x)%Q.
Proof.
  intros H. apply Qnot_le_lt. intros Hle.
  apply Qle_bool_iff in Hle. congruence.
Qed.

Lemma Qle_bool_cases (x y : Q) :
  (Qle_bool x y = true /\ x <= y)%Q \/ (Qle_bool x y = false /\ y < x)%Q.
Proof.
  destruct (Qle_bool x y) eqn:E.
  - left. split; [reflexivity | now apply Qle_bool_iff].
  - right. split; [reflexivity | now apply Qle_bool_false].
Qed.

Lemma Qabs_cases (x : Q) :
  (0 <= x /\ Qabs x == x)%Q \/ (x <= 0 /\ Qabs x == - x)%Q.
Proof.
  destruct (Qlt_le_dec x 0) as [H | H].
  - right. split; [now apply Qlt_le_weak | apply Qabs_neg; now apply Qlt_le_weak].
  - left. split; [assumption | now apply Qabs_pos].
Qed.

Lemma length_nonneg {A : Type} (xs : list A) :
  (0 <= inject_Z (Z.of_nat (List.length xs)))%Q.
Proof.
  change 0%Q with (inject_Z 0). rewrite <- Zle_Qle. lia.
Qed.

(** Reading the bounds off a successful validation. *)
Lemma check_iff (v : value) :
  ((v >=? 0) && (v <=? 100))%bool = true <-> within 0 100 v.
Proof.
  destruct v as [q | |]; simpl.
  - rewrite andb_true_iff, !Qle_bool_iff. tauto.
  - split; [discriminate | tauto].
  - split; [discriminate | tauto].
Qed.

Lemma validateBigFive_within (t : BigFiveTraits) :
  PersonalityEngine.validateBigFive t = true <->
  within 0 100 t.(openness) /\ within 0 100 t.(conscientiousness) /\
  within 0 100 t.(extraversion) /\ within 0 100 t.(agreeableness) /\
  within 0 100 t.(neuroticism).
Proof.
  unfold PersonalityEngine.validateBigFive, PersonalityEngine.requiredTraits.
  cbn [forallb]. change (prop t "openness") with t.(openness).
  change (prop t "conscientiousness") with t.(conscientiousness).
  change (prop t "extraversion") with t.(extraversion).
  change (prop t "agreeableness") with t.(agreeableness).
  change (prop t "neuroticism") with t.(neuroticism).
  rewrite <- !check_iff, !andb_true_iff. tauto.
Qed.

(** A valid input is a record of five rationals of [[0, 100]]. *)
Lemma valid_inv (t : BigFiveTraits) :
  PersonalityEngine.validateBigFive t = true ->
  exists o c e a n : Q,
    t = mkBigFive (Num o) (Num c) (Num e) (Num a) (Num n) /\
    (0 <= o <= 100)%Q /\ (0 <= c <= 100)%Q /\ (0 <= e <= 100)%Q /\
    (0 <= a <= 100)%Q /\ (0 <= n <= 100)%Q.
Proof.
  intros H. apply validateBigFive_within in H.
  destruct t as [[o| |] [c| |] [e| |] [a| |] [n| |]]; cbn in H;
    try (exfalso; tauto).
  exists o, c, e, a, n. repeat split; tauto.
Qed.

Lemma not_within_iff (v : value) :
  ~ within 0 100 v <-> missing v \/ outside_0_100 v.
Proof.
  unfold missing. destruct v as [q | |]; simpl.
  - split.
    + intros H. right. destruct (Qlt_le_dec q 0) as [Hlt | Hge]; [now left |].
      destruct (Qlt_le_dec 100 q) as [Hgt | Hle]; [now right |].
      exfalso. apply H. now split.
    + intros [Hm | [Hlt | Hgt]] [H0 H100]; [discriminate | |].
      * apply (Qlt_irrefl q). eapply Qlt_le_trans; eassumption.
      * apply (Qlt_irrefl q). eapply Qle_lt_trans; eassumption.
  - split; [now right | tauto].
  - split; [now left | tauto].
Qed.

Lemma within_dec (v : value) : {within 0 100 v} + {~ within 0 100 v}.
Proof.
  destruct v as [q | |]; simpl; [| right; tauto | right; tauto].
  destruct (Qlt_le_dec q 0) as [Hlt | Hge].
  - right. intros [H _]. apply (Qlt_irrefl q). eapply Qlt_le_trans; eassumption.
  - destruct (Qlt_le_dec 100 q) as [Hgt | Hle].
    + right. intros [_ H]. apply (Qlt_irrefl q). eapply Qle_lt_trans; eassumption.
    + left. now split.
Qed.

Lemma validateBigFive_false_iff (t : BigFiveTraits) :
  PersonalityEngine.validateBigFive t = false <->
  Exists (fun v => missing v \/ outside_0_100 v) (fields t).
Proof.
  rewrite <- not_true_iff_false, validateBigFive_within.
  unfold fields. rewrite !Exists_cons, Exists_nil, <- !not_within_iff.
  destruct (within_dec t.(openness)), (within_dec t.(conscientiousness)),
    (within_dec t.(extraversion)), (within_dec t.(agreeableness)),
    (within_dec t.(neuroticism)); tauto.
Qed.

(* ================================================================== *)
(** * The orchestrator: validation and failure *)
(* ================================================================== *)

(** C2.  [generateAllSystems t] throws exactly when [validateBigFive t]
    is false, which is exactly when one of the five fields is missing or
    lies outside [[0, 100]] (a [NaN] counts as outside); a call that
    throws returns nothing, and a call that returns yields the input [t]
    unchanged together with the four derived profiles. *)
Theorem generateAllSystems_throws_iff_invalid (t : BigFiveTraits) :
  (PersonalityEngine.validateBigFive t = false <->
   Exists (fun v => missing v \/ outside_0_100 v) (fields t)) /\
  (PersonalityEngine.generateAllSystems t = Throw "Invalid Big Five traits provided" <->
   PersonalityEngine.validateBigFive t = false) /\
  ((exists msg, PersonalityEngine.generateAllSystems t = Throw msg) <->
   PersonalityEngine.validateBigFive t = false) /\
  (forall p, PersonalityEngine.generateAllSystems t = Return p <->
     PersonalityEngine.validateBigFive t = true /\
     p = {| bigFive := t;
            mbti := PersonalityEngine.convertBigFiveToMBTI t;
            hexaco := PersonalityEngine.convertBigFiveToHEXACO t;
            darkTriad := PersonalityEngine.convertBigFiveToDarkTriad t;
            tci := PersonalityEngine.convertBigFiveToTCI t |}).
Proof.
  split; [apply validateBigFive_false_iff |].
  unfold PersonalityEngine.generateAllSystems.
  destruct (PersonalityEngine.validateBigFive t); cbn [negb].
  - split; [| split].
    + split; discriminate.
    + split; [intros [msg H] |]; discriminate.
    + intros p. split.
      * intros H. injection H as <-. split; reflexivity.
      * intros [_ ->]. reflexivity.
  - split; [| split].
    + split; reflexivity.
    + split; [reflexivity | intros _; eexists; reflexivity].
    + intros p. split; [| intros [H _]]; discriminate.
Qed.

(* ================================================================== *)
(** * The MBTI converters *)
(* ================================================================== *)

(** The two MBTI converters are the same function. *)
Lemma MBTIConverter_agrees (t : BigFiveTraits) :
  MBTIConverter.convertBigFiveToMBTI t = PersonalityEngine.convertBigFiveToMBTI t.
Proof. reflexivity. Qed.

(** C5, as the specification states it, fails: at the neutral input the
    fourth letter is the else-branch of [conscientiousness > 50], which
    is P, so the type is not ISTJ. *)
Lemma neutral_type_is_not_ISTJ :
  MBTI.type (PersonalityEngine.convertBigFiveToMBTI neutral) <> "ISTJ" /\
  MBTI.type (MBTIConverter.convertBigFiveToMBTI neutral) <> "ISTJ".
Proof. split; intros H; vm_compute in H; discriminate H. Qed.

(** C5, amended.  For the neutral input (every trait at 50) both MBTI
    converters return the type ISTP, every one of the four dimension
    strengths equal to 0 and a confidence equal to 20. *)
Theorem neutral_MBTI_profile :
  let p := PersonalityEngine.convertBigFiveToMBTI neutral in
  let p' := MBTIConverter.convertBigFiveToMBTI neutral in
  MBTI.type p = "ISTP" /\ MBTI.type p' = "ISTP" /\
  same (strength (EI (MBTI.dimensions p))) 0 /\
  same (strength (SN (MBTI.dimensions p))) 0 /\
  same (strength (TF (MBTI.dimensions p))) 0 /\
  same (strength (JP (MBTI.dimensions p))) 0 /\
  same (MBTI.confidence p) 20 /\
  same (strength (EI (MBTI.dimensions p'))) 0 /\
  same (strength (SN (MBTI.dimensions p'))) 0 /\
  same (strength (TF (MBTI.dimensions p'))) 0 /\
  same (strength (JP (MBTI.dimensions p'))) 0 /\
  same (MBTI.confidence p') 20.
Proof. cbv zeta. repeat split; vm_compute; reflexivity. Qed.

Lemma gt_same_false (v : value) (q : Q) : same v (Num q) -> (v >? Num q) = false.
Proof.
  destruct v as [x | |]; simpl; try tauto.
  intros H. apply negb_false_iff, Qle_bool_iff. rewrite H. apply Qle_refl.
Qed.

(** C6.  For every valid input, a source trait equal to 50 resolves its
    MBTI dimension to the low pole: extraversion 50 gives I, openness 50
    gives S, agreeableness 50 gives T and conscientiousness 50 gives P,
    in both converters. *)
Theorem trait_at_50_resolves_low (t : BigFiveTraits)
    (Hvalid : PersonalityEngine.validateBigFive t = true) :
  let p := PersonalityEngine.convertBigFiveToMBTI t in
  let p' := MBTIConverter.convertBigFiveToMBTI t in
  (same t.(extraversion) 50 -> resolves p 0 EI "I" /\ resolves p' 0 EI "I") /\
  (same t.(openness) 50 -> resolves p 1 SN "S" /\ resolves p' 1 SN "S") /\
  (same t.(agreeableness) 50 -> resolves p 2 TF "T" /\ resolves p' 2 TF "T") /\
  (same t.(conscientiousness) 50 -> resolves p 3 JP "P" /\ resolves p' 3 JP "P").
Proof.
  intros p p'. change p' with p. subst p p'.
  unfold resolves, PersonalityEngine.convertBigFiveToMBTI.
  cbv zeta. cbn [MBTI.type MBTI.dimensions EI SN TF JP preference].
  split; [| split; [| split]]; intros H; rewrite (gt_same_false _ _ H);
    repeat split; try reflexivity;
    destruct (t.(extraversion) >? 50), (t.(openness) >? 50),
      (t.(agreeableness) >? 50), (t.(conscientiousness) >? 50);
    reflexivity.
Qed.

Lemma trait_at_50_resolves_low_witness :
  PersonalityEngine.validateBigFive neutral = true /\
  resolves (PersonalityEngine.convertBigFiveToMBTI neutral) 0 EI "I" /\
  resolves (PersonalityEngine.convertBigFiveToMBTI neutral) 1 SN "S" /\
  resolves (PersonalityEngine.convertBigFiveToMBTI neutral) 2 TF "T" /\
  resolves (PersonalityEngine.convertBigFiveToMBTI neutral) 3 JP "P".
Proof.
  split; [reflexivity |].
  destruct (trait_at_50_resolves_low neutral eq_refl) as (He & Ho & Ha & Hc).
  split; [exact (proj1 (He (Qeq_refl 50))) |].
  split; [exact (proj1 (Ho (Qeq_refl 50))) |].
  split; [exact (proj1 (Ha (Qeq_refl 50))) |].
  exact (proj1 (Hc (Qeq_refl 50))).
Defined.

(* ================================================================== *)
(** * Dark Triad placeholders *)
(* ================================================================== *)

(** C10.  Whatever the input, the direct converter returns
    [overallDarkness = 0] and [riskLevel = LOW], and the HEXACO-sourced
    converter returns these two and [confidence = 80]. *)
Theorem darkTriad_placeholders (t : BigFiveTraits) (h : HEXACOProfile) :
  DarkTriad.overallDarkness (PersonalityEngine.convertBigFiveToDarkTriad t) = Num 0 /\
  DarkTriad.riskLevel (PersonalityEngine.convertBigFiveToDarkTriad t) = LOW /\
  DarkTriad.overallDarkness (DarkTriadCalculator.calculateFromHEXACO h) = Num 0 /\
  DarkTriad.riskLevel (DarkTriadCalculator.calculateFromHEXACO h) = LOW /\
  DarkTriad.confidence (DarkTriadCalculator.calculateFromHEXACO h) = Num 80.
Proof. repeat split. Qed.

(* ================================================================== *)
(** * Evaluating the engine on numeric inputs *)
(* ================================================================== *)

Lemma div_Num (a b : Q) :
  Qeq_bool b 0 = false -> Num a / Num b = Num (a / b).
Proof. intros H. unfold JS.div. now rewrite H. Qed.

Lemma length_of_five {A : Type} (x1 x2 x3 x4 x5 : A) :
  length_of [x1; x2; x3; x4; x5] = Num 5.
Proof. reflexivity. Qed.

(** Unfolds the JavaScript operators on numeric arguments and the
    projections of the records, leaving rational arithmetic alone. *)
Ltac js_step :=
  cbv zeta;
  cbn [JS.add JS.sub JS.mul JS.lift2 JS.Math_abs JS.Math_min JS.Math_max
       JS.Math_pow JS.lt JS.gt JS.le JS.ge JS.reduce fold_left List.map
       openness conscientiousness extraversion agreeableness neuroticism
       MBTI.type MBTI.dimensions MBTI.confidence EI SN TF JP preference strength
       HEXACO.honestyHumility HEXACO.emotionality HEXACO.extraversion
       HEXACO.agreeableness HEXACO.conscientiousness HEXACO.openness
       HEXACO.confidence
       DarkTriad.machiavellianism DarkTriad.narcissism DarkTriad.psychopathy
       DarkTriad.overallDarkness DarkTriad.riskLevel DarkTriad.confidence
       TCI.temperament TCI.character TCI.confidence
       TCI.noveltySeekingCuriosity TCI.impulsiveness TCI.extravagance
       TCI.disorderliness TCI.harmAvoidance TCI.rewardDependence TCI.persistence
       TCI.selfDirectedness TCI.cooperativeness TCI.selfTranscendence
       bigFive mbti hexaco darkTriad tci
       within same the];
  rewrite ?length_of_five;
  rewrite ?div_Num by reflexivity.

Ltac js_eval := js_step; repeat (progress js_step).

(** Case analysis on the minima, maxima, absolute values and boolean
    comparisons of a goal on rationals, followed by linear arithmetic. *)
Ltac q_case_min a b :=
  let m := fresh "m" in
  destruct (Q.min_spec a b) as [[? ?] | [? ?]]; set (m := Qmin a b) in *; clearbody m.

Ltac q_case_max a b :=
  let m := fresh "m" in
  destruct (Q.max_spec a b) as [[? ?] | [? ?]]; set (m := Qmax a b) in *; clearbody m.

Ltac q_case_abs a :=
  let m := fresh "m" in
  destruct (Qabs_cases a) as [[? ?] | [? ?]]; set (m := Qabs a) in *; clearbody m.

Ltac q_split :=
  repeat match goal with
  | |- context [Qmin ?a ?b] => q_case_min a b
  | |- context [Qmax ?a ?b] => q_case_max a b
  | |- context [Qabs ?a] => q_case_abs a
  | _ : context [Qmin ?a ?b] |- _ => q_case_min a b
  | _ : context [Qmax ?a ?b] |- _ => q_case_max a b
  | _ : context [Qabs ?a] |- _ => q_case_abs a
  end.

Ltac q_div :=
  unfold Qdiv in *;
  change (/ 3)%Q with (1 # 3)%Q in *;
  change (/ 4)%Q with (1 # 4)%Q in *;
  change (/ 5)%Q with (1 # 5)%Q in *.

Ltac q_solve := q_div; q_split; repeat split; try exact I; lra.

(* ================================================================== *)
(** * HEXACO honesty-humility *)
(* ================================================================== *)

Lemma honestyHumility_eval (o c e a n : Q) :
  same (PersonalityEngine.calculateHonestyHumility
          (mkBigFive (Num o) (Num c) (Num e) (Num a) (Num n)))
       (Num (honestyHumility_rule a c n)).
Proof.
  unfold PersonalityEngine.calculateHonestyHumility, honestyHumility_rule.
  js_eval.
  destruct (Qle_bool_cases 20 a) as [[-> Hle] | [-> Hlt]];
    destruct (Qlt_le_dec a 20) as [Hd | Hd]; cbn [negb same];
    try reflexivity; exfalso; lra.
Qed.

(** C7.  For every valid input, both HEXACO calculators return as
    honesty-humility the average of [100 - neuroticism], agreeableness
    and conscientiousness, less 30 and floored at 0 when agreeableness is
    below 20, capped at 100 otherwise; with agreeableness, neuroticism
    and conscientiousness all equal to 10 the value is 20/3, which lies
    between 6.66 and 6.67. *)
Theorem honestyHumility_formula (t : BigFiveTraits)
    (Hvalid : PersonalityEngine.validateBigFive t = true) :
  let expected :=
    honestyHumility_rule (the t.(agreeableness)) (the t.(conscientiousness))
                         (the t.(neuroticism)) in
  same (PersonalityEngine.calculateHonestyHumility t) (Num expected) /\
  same (HEXACOCalculator.calculateHonestyHumility t) (Num expected) /\
  same (HEXACO.honestyHumility (PersonalityEngine.convertBigFiveToHEXACO t)) (Num expected) /\
  same (HEXACO.honestyHumility (HEXACOCalculator.calculateFromBigFive t)) (Num expected) /\
  (same t.(agreeableness) 10 -> same t.(neuroticism) 10 ->
   same t.(conscientiousness) 10 ->
   same (PersonalityEngine.calculateHonestyHumility t) (Num (20 # 3)) /\
   same (HEXACOCalculator.calculateHonestyHumility t) (Num (20 # 3)) /\
   within 6.66 6.67 (PersonalityEngine.calculateHonestyHumility t)).
Proof.
  destruct (valid_inv t Hvalid) as (o & c & e & a & n & -> & Ho & Hc & He & Ha & Hn).
  intros expected. subst expected. cbn [the agreeableness conscientiousness neuroticism].
  change (HEXACOCalculator.calculateHonestyHumility ?x)
    with (PersonalityEngine.calculateHonestyHumility x).
  cbn [HEXACO.honestyHumility PersonalityEngine.convertBigFiveToHEXACO
       HEXACOCalculator.calculateFromBigFive].
  change (HEXACOCalculator.calculateHonestyHumility ?x)
    with (PersonalityEngine.calculateHonestyHumility x).
  pose proof (honestyHumility_eval o c e a n) as Heval.
  repeat (split; [exact Heval |]).
  cbn [same]. intros Ea En Ec.
  revert Heval.
  destruct (PersonalityEngine.calculateHonestyHumility _) as [q | |];
    cbn [same within]; try tauto.
  unfold honestyHumility_rule.
  destruct (Qlt_le_dec a 20) as [Hd | Hd]; [| exfalso; lra].
  intros Hq. q_div.
  destruct (Q.max_spec 0 ((100 - n + a + c) * (1 # 3) - 30)) as [[? Hm] | [? Hm]];
    rewrite Hm in Hq; repeat split; lra.
Qed.

Lemma honestyHumility_formula_witness :
  PersonalityEngine.validateBigFive scenario3 = true /\
  same (PersonalityEngine.calculateHonestyHumility scenario3) (Num (20 # 3)) /\
  same (HEXACOCalculator.calculateHonestyHumility scenario3) (Num (20 # 3)) /\
  within 6.66 6.67 (PersonalityEngine.calculateHonestyHumility scenario3).
Proof.
  split; [reflexivity |].
  exact (proj2 (proj2 (proj2 (proj2 (honestyHumility_formula scenario3 eq_refl))))
           (Qeq_refl 10) (Qeq_refl 10) (Qeq_refl 10)).
Defined.

(* ================================================================== *)
(** * Confidence scores *)
(* ================================================================== *)

Lemma Object_values_numeric (o c e a n : Q) :
  Object_values (mkBigFive (Num o) (Num c) (Num e) (Num a) (Num n))
  = [Num o; Num c; Num e; Num a; Num n].
Proof. reflexivity. Qed.

Lemma extreme_filter_length (xs : list Q) :
  List.length (filter (fun score => (score <? 20) || (score >? 80)) (List.map Num xs))
  = extreme_count xs.
Proof.
  unfold extreme_count.
  induction xs as [| x xs IH]; [reflexivity |].
  cbn [List.map filter]. change ((Num x <? 20) || (Num x >? 80)) with (is_extreme x).
  destruct (is_extreme x); cbn [List.length]; now rewrite IH.
Qed.

Lemma MBTIConfidence_eval (o c e a n : Q) :
  PersonalityEngine.calculateMBTIConfidence
    (mkBigFive (Num o) (Num c) (Num e) (Num a) (Num n))
  = Num (Qmin 100 ((0 + Qabs (e - 50) + Qabs (o - 50) + Qabs (a - 50) + Qabs (c - 50)) / 4
                   * 2 + 20)).
Proof. unfold PersonalityEngine.calculateMBTIConfidence. js_eval. reflexivity. Qed.

Lemma HEXACOConfidence_eval (o c e a n : Q) :
  PersonalityEngine.calculateHEXACOConfidence
    (mkBigFive (Num o) (Num c) (Num e) (Num a) (Num n))
  = Num (Qmin 100 (70 + inject_Z (Z.of_nat (extreme_count [o; c; e; a; n])) * 5)).
Proof.
  unfold PersonalityEngine.calculateHEXACOConfidence.
  rewrite Object_values_numeric.
  change [Num o; Num c; Num e; Num a; Num n] with (List.map Num [o; c; e; a; n]).
  cbv zeta. unfold length_of. rewrite extreme_filter_length. reflexivity.
Qed.

Lemma TCIConfidence_eval (o c e a n : Q) :
  let m := ((0 + o + c + e + a + n) / 5)%Q in
  PersonalityEngine.calculateTCIConfidence
    (mkBigFive (Num o) (Num c) (Num e) (Num a) (Num n))
  = Num (Qmax 60 (100 - (0 + (o - m) ^ 2 + (c - m) ^ 2 + (e - m) ^ 2
                         + (a - m) ^ 2 + (n - m) ^ 2) / 5)).
Proof.
  unfold PersonalityEngine.calculateTCIConfidence, PersonalityEngine.calculateVariance.
  rewrite Object_values_numeric. js_eval. reflexivity.
Qed.

Lemma square_nonneg (x : Q) : (0 <= x ^ 2)%Q.
Proof. change (x ^ 2)%Q with (x * x)%Q. nra. Qed.

(** C8.  For every valid input: the TCI confidence is
    [max(60, 100 - variance of the five traits)] and is never below 60;
    the MBTI confidence is [min(100, mean dimension strength + 20)] and
    lies between 20 and 100; the HEXACO confidence is
    [min(100, 70 + 5 * number of traits below 20 or above 80)] and never
    exceeds 100. *)
Theorem confidence_floors_and_caps (t : BigFiveTraits)
    (Hvalid : PersonalityEngine.validateBigFive t = true) :
  let xs := List.map the (fields t) in
  let tciConfidence := TCI.confidence (PersonalityEngine.convertBigFiveToTCI t) in
  let mbtiProfile := PersonalityEngine.convertBigFiveToMBTI t in
  let hexacoConfidence := HEXACO.confidence (PersonalityEngine.convertBigFiveToHEXACO t) in
  (same tciConfidence (Num (Qmax 60 (100 - variance xs))) /\
   within 60 100 tciConfidence) /\
  (same (MBTI.confidence mbtiProfile)
        (Num (Qmin 100 (mean (strengths mbtiProfile) + 20))) /\
   within 20 100 (MBTI.confidence mbtiProfile)) /\
  (same hexacoConfidence
        (Num (Qmin 100 (70 + 5 * inject_Z (Z.of_nat (extreme_count xs))))) /\
   within 70 100 hexacoConfidence).
Proof.
  destruct (valid_inv t Hvalid) as (o & c & e & a & n & -> & Ho & Hc & He & Ha & Hn).
  cbv zeta.
  cbn [TCI.confidence PersonalityEngine.convertBigFiveToTCI
       HEXACO.confidence PersonalityEngine.convertBigFiveToHEXACO].
  unfold PersonalityEngine.convertBigFiveToMBTI, strengths. js_eval.
  rewrite TCIConfidence_eval, MBTIConfidence_eval, HEXACOConfidence_eval.
  cbn [fields List.map the openness conscientiousness extraversion agreeableness
       neuroticism same within].
  split; [| split].
  - split.
    + apply Q.max_compat; [reflexivity |].
      unfold variance, mean. cbn [List.map fold_right List.length].
      change (inject_Z (Z.of_nat 5)) with 5%Q. field.
    + pose proof (square_nonneg (o - (0 + o + c + e + a + n) / 5)).
      pose proof (square_nonneg (c - (0 + o + c + e + a + n) / 5)).
      pose proof (square_nonneg (e - (0 + o + c + e + a + n) / 5)).
      pose proof (square_nonneg (a - (0 + o + c + e + a + n) / 5)).
      pose proof (square_nonneg (n - (0 + o + c + e + a + n) / 5)).
      set (so := ((o - (0 + o + c + e + a + n) / 5) ^ 2)%Q) in *.
      set (sc := ((c - (0 + o + c + e + a + n) / 5) ^ 2)%Q) in *.
      set (se := ((e - (0 + o + c + e + a + n) / 5) ^ 2)%Q) in *.
      set (sa := ((a - (0 + o + c + e + a + n) / 5) ^ 2)%Q) in *.
      set (sn := ((n - (0 + o + c + e + a + n) / 5) ^ 2)%Q) in *.
      clearbody so sc se sa sn. q_solve.
  - split.
    + apply Q.min_compat; [reflexivity |].
      unfold mean. cbn [fold_right List.length].
      change (inject_Z (Z.of_nat 4)) with 4%Q. field.
    + q_solve.
  - split.
    + apply Q.min_compat; [reflexivity |]. ring.
    + pose proof (length_nonneg (filter is_extreme [o; c; e; a; n])) as Hk.
      fold (extreme_count [o; c; e; a; n]) in Hk.
      set (k := inject_Z (Z.of_nat (extreme_count [o; c; e; a; n]))) in *.
      clearbody k. q_solve.
Qed.

Lemma confidence_floors_and_caps_witness :
  PersonalityEngine.validateBigFive scenario3 = true /\
  within 60 100 (TCI.confidence (PersonalityEngine.convertBigFiveToTCI scenario3)) /\
  within 20 100 (MBTI.confidence (PersonalityEngine.convertBigFiveToMBTI scenario3)) /\
  within 70 100 (HEXACO.confidence (PersonalityEngine.convertBigFiveToHEXACO scenario3)).
Proof.
  split; [reflexivity |].
  destruct (confidence_floors_and_caps scenario3 eq_refl)
    as ((_ & Htci) & (_ & Hmbti) & (_ & Hhexaco)).
  split; [exact Htci |]. split; [exact Hmbti | exact Hhexaco].
Defined.

(* ================================================================== *)
(** * Ranges of the derived profiles *)
(* ================================================================== *)

(** Decides the comparisons left in a goal, one branch at a time. *)
Ltac q_branch :=
  repeat match goal with
  | |- context [Qle_bool ?x ?y] =>
      let H := fresh "Hcmp" in
      destruct (Qle_bool_cases x y) as [[-> H] | [-> H]]; cbn [negb]
  end.

Section NumericInput.

Variables o c e a n : Q.
Hypothesis Ho : (0 <= o <= 100)%Q.
Hypothesis Hc : (0 <= c <= 100)%Q.
Hypothesis He : (0 <= e <= 100)%Q.
Hypothesis Ha : (0 <= a <= 100)%Q.
Hypothesis Hn : (0 <= n <= 100)%Q.

Let t : BigFiveTraits := mkBigFive (Num o) (Num c) (Num e) (Num a) (Num n).

Lemma mbti_in_range :
  Forall (within 0 100) (mbti_numbers (PersonalityEngine.convertBigFiveToMBTI t)).
Proof.
  unfold mbti_numbers, PersonalityEngine.convertBigFiveToMBTI, t.
  cbn [MBTI.dimensions MBTI.confidence EI SN TF JP strength].
  rewrite MBTIConfidence_eval. js_eval.
  repeat constructor; q_solve.
Qed.

Lemma hexaco_in_range :
  Forall (within 0 100) (hexaco_numbers (PersonalityEngine.convertBigFiveToHEXACO t)).
Proof.
  unfold hexaco_numbers, PersonalityEngine.convertBigFiveToHEXACO, t.
  cbn [HEXACO.honestyHumility HEXACO.emotionality HEXACO.extraversion
       HEXACO.agreeableness HEXACO.conscientiousness HEXACO.openness
       HEXACO.confidence].
  rewrite HEXACOConfidence_eval.
  pose proof (length_nonneg (filter is_extreme [o; c; e; a; n])) as Hk.
  fold (extreme_count [o; c; e; a; n]) in Hk.
  set (k := inject_Z (Z.of_nat (extreme_count [o; c; e; a; n]))) in *.
  clearbody k.
  unfold PersonalityEngine.calculateHonestyHumility,
    PersonalityEngine.calculateEmotionality,
    PersonalityEngine.adjustHEXACOAgreeableness.
  js_eval. q_branch; js_eval; repeat constructor; q_solve.
Qed.

Lemma darkTriad_scores_in_range :
  Forall (within 0 100)
         (darkTriad_scores (PersonalityEngine.convertBigFiveToDarkTriad t)).
Proof.
  unfold darkTriad_scores, PersonalityEngine.convertBigFiveToDarkTriad, t.
  cbn [DarkTriad.machiavellianism DarkTriad.narcissism DarkTriad.psychopathy].
  unfold PersonalityEngine.calculateMachiavellianism,
    PersonalityEngine.calculateNarcissism, PersonalityEngine.calculatePsychopathy.
  js_eval. repeat constructor; q_solve.
Qed.

Lemma darkTriad_in_range :
  Forall (within 0 100)
         (darkTriad_numbers (PersonalityEngine.convertBigFiveToDarkTriad t)).
Proof.
  unfold darkTriad_numbers. apply Forall_app. split.
  - apply darkTriad_scores_in_range.
  - unfold PersonalityEngine.convertBigFiveToDarkTriad, t.
    cbn [DarkTriad.overallDarkness DarkTriad.confidence].
    unfold PersonalityEngine.calculateDarkTriadConfidence.
    js_eval. q_branch; js_eval; repeat constructor; q_solve.
Qed.

Lemma tci_in_range :
  Forall (within 0 100) (tci_numbers (PersonalityEngine.convertBigFiveToTCI t)).
Proof.
  unfold tci_numbers, PersonalityEngine.convertBigFiveToTCI.
  cbn [TCI.temperament TCI.character TCI.confidence
       TCI.noveltySeekingCuriosity TCI.impulsiveness TCI.extravagance
       TCI.disorderliness TCI.harmAvoidance TCI.rewardDependence TCI.persistence
       TCI.selfDirectedness TCI.cooperativeness TCI.selfTranscendence].
  unfold t. rewrite TCIConfidence_eval. cbv zeta.
  pose proof (square_nonneg (o - (0 + o + c + e + a + n) / 5)).
  pose proof (square_nonneg (c - (0 + o + c + e + a + n) / 5)).
  pose proof (square_nonneg (e - (0 + o + c + e + a + n) / 5)).
  pose proof (square_nonneg (a - (0 + o + c + e + a + n) / 5)).
  pose proof (square_nonneg (n - (0 + o + c + e + a + n) / 5)).
  set (so := ((o - (0 + o + c + e + a + n) / 5) ^ 2)%Q) in *.
  set (sc := ((c - (0 + o + c + e + a + n) / 5) ^ 2)%Q) in *.
  set (se := ((e - (0 + o + c + e + a + n) / 5) ^ 2)%Q) in *.
  set (sa := ((a - (0 + o + c + e + a + n) / 5) ^ 2)%Q) in *.
  set (sn := ((n - (0 + o + c + e + a + n) / 5) ^ 2)%Q) in *.
  clearbody so sc se sa sn.
  unfold PersonalityEngine.calculateNoveltySeekingCuriosity,
    PersonalityEngine.calculateImpulsiveness, PersonalityEngine.calculateExtravagance,
    PersonalityEngine.calculateDisorderliness, PersonalityEngine.calculateHarmAvoidance,
    PersonalityEngine.calculateRewardDependence, PersonalityEngine.calculatePersistence,
    PersonalityEngine.calculateSelfDirectedness,
    PersonalityEngine.calculateCooperativeness,
    PersonalityEngine.calculateSelfTranscendence.
  js_eval. repeat constructor; q_solve.
Qed.

End NumericInput.

(** C1.  For every input whose five fields lie in [[0, 100]],
    [generateAllSystems] returns, and every numeric field of the four
    derived profiles lies in [[0, 100]]: the four MBTI strengths and the
    MBTI confidence, the six HEXACO factors and the HEXACO confidence,
    the three Dark Triad scores, [overallDarkness] and the Dark Triad
    confidence, the seven temperament and three character fields of TCI
    and the TCI confidence. *)
Theorem generateAllSystems_in_range (t : BigFiveTraits)
    (Hvalid : PersonalityEngine.validateBigFive t = true) :
  exists s : Systems,
    PersonalityEngine.generateAllSystems t = Return s /\
    Forall (within 0 100) (derived_numbers s).
Proof.
  unfold PersonalityEngine.generateAllSystems. rewrite Hvalid. cbn [negb].
  eexists. split; [reflexivity |].
  unfold derived_numbers. cbn [mbti hexaco darkTriad tci].
  destruct (valid_inv t Hvalid) as (o & c & e & a & n & -> & Ho & Hc & He & Ha & Hn).
  apply Forall_app; split; [now apply mbti_in_range |].
  apply Forall_app; split; [now apply hexaco_in_range |].
  apply Forall_app; split; [now apply darkTriad_in_range | now apply tci_in_range].
Qed.

Lemma generateAllSystems_in_range_witness :
  PersonalityEngine.validateBigFive scenario3 = true /\
  exists s : Systems,
    PersonalityEngine.generateAllSystems scenario3 = Return s /\
    Forall (within 0 100) (derived_numbers s).
Proof.
  split; [reflexivity |].
  exact (generateAllSystems_in_range scenario3 eq_refl).
Defined.

(* ================================================================== *)
(** * The two Dark Triad conversions *)
(* ================================================================== *)

Lemma calculateFromHEXACO_in_range (h : HEXACOProfile) :
  Forall (within 0 100) (hexaco_numbers h) ->
  Forall (within 0 100) (darkTriad_scores (DarkTriadCalculator.calculateFromHEXACO h)).
Proof.
  destruct h as [hh em ex ag co op cf]. unfold hexaco_numbers.
  cbn [HEXACO.honestyHumility HEXACO.emotionality HEXACO.extraversion
       HEXACO.agreeableness HEXACO.conscientiousness HEXACO.openness
       HEXACO.confidence].
  intros H.
  repeat match goal with
  | H : Forall _ (_ :: _) |- _ => apply Forall_cons_iff in H; destruct H as [? H]
  end.
  destruct hh as [hh | |], em as [em | |], ex as [ex | |], ag as [ag | |];
    cbn [within] in *; try tauto.
  unfold darkTriad_scores, DarkTriadCalculator.calculateFromHEXACO.
  cbn [DarkTriad.machiavellianism DarkTriad.narcissism DarkTriad.psychopathy].
  unfold DarkTriadCalculator.calculateMachiavellianism,
    DarkTriadCalculator.calculateNarcissism, DarkTriadCalculator.calculatePsychopathy.
  js_eval. repeat constructor; q_solve.
Qed.

(** C4, as the specification states it, fails: at the neutral input
    the direct conversion gives the scores 46.5, 40.5 and 31.25, the
    HEXACO-sourced one 52, 50 and 46. *)
Lemma darkTriad_variants_differ :
  let direct := PersonalityEngine.convertBigFiveToDarkTriad neutral in
  let sourced :=
    DarkTriadCalculator.calculateFromHEXACO
      (PersonalityEngine.convertBigFiveToHEXACO neutral) in
  PersonalityEngine.validateBigFive neutral = true /\
  same (DarkTriad.machiavellianism direct) 46.5 /\
  same (DarkTriad.narcissism direct) 40.5 /\
  same (DarkTriad.psychopathy direct) 31.25 /\
  same (DarkTriad.machiavellianism sourced) 52 /\
  same (DarkTriad.narcissism sourced) 50 /\
  same (DarkTriad.psychopathy sourced) 46 /\
  ~ same (DarkTriad.machiavellianism direct) (DarkTriad.machiavellianism sourced) /\
  ~ same (DarkTriad.narcissism direct) (DarkTriad.narcissism sourced) /\
  ~ same (DarkTriad.psychopathy direct) (DarkTriad.psychopathy sourced).
Proof.
  cbv zeta.
  repeat match goal with
  | |- _ /\ _ => split
  | |- ~ _ => intros H; vm_compute in H; discriminate H
  | |- _ => vm_compute; reflexivity
  end.
Qed.

(** C4, amended.  For every valid input the unified pipeline carries the
    direct Big-Five conversion; the HEXACO-sourced conversion of the
    HEXACO profile of the same input is a separate computation whose
    three scores also lie in [[0, 100]], and the two agree on the fields
    [overallDarkness] and [riskLevel].  Nothing is claimed on the
    equality of the three scores. *)
Theorem darkTriad_pipeline_uses_direct_variant (t : BigFiveTraits)
    (Hvalid : PersonalityEngine.validateBigFive t = true) :
  let direct := PersonalityEngine.convertBigFiveToDarkTriad t in
  let sourced :=
    DarkTriadCalculator.calculateFromHEXACO (PersonalityEngine.convertBigFiveToHEXACO t) in
  (exists s, PersonalityEngine.generateAllSystems t = Return s /\ s.(darkTriad) = direct) /\
  Forall (within 0 100) (darkTriad_scores direct) /\
  Forall (within 0 100) (darkTriad_scores sourced) /\
  DarkTriad.overallDarkness direct = DarkTriad.overallDarkness sourced /\
  DarkTriad.riskLevel direct = DarkTriad.riskLevel sourced.
Proof.
  cbv zeta. split; [| split; [| split; [| split; reflexivity]]].
  - unfold PersonalityEngine.generateAllSystems. rewrite Hvalid. cbn [negb].
    eexists. split; reflexivity.
  - destruct (valid_inv t Hvalid) as (o & c & e & a & n & -> & Ho & Hc & He & Ha & Hn).
    now apply darkTriad_scores_in_range.
  - apply calculateFromHEXACO_in_range.
    destruct (valid_inv t Hvalid) as (o & c & e & a & n & -> & Ho & Hc & He & Ha & Hn).
    now apply hexaco_in_range.
Qed.

Lemma darkTriad_pipeline_uses_direct_variant_witness :
  PersonalityEngine.validateBigFive neutral = true /\
  Forall (within 0 100)
    (darkTriad_scores (PersonalityEngine.convertBigFiveToDarkTriad neutral)) /\
  Forall (within 0 100)
    (darkTriad_scores
       (DarkTriadCalculator.calculateFromHEXACO
          (PersonalityEngine.convertBigFiveToHEXACO neutral))).
Proof.
  split; [reflexivity |].
  destruct (darkTriad_pipeline_uses_direct_variant neutral eq_refl)
    as (_ & Hdirect & Hsourced & _).
  split; [exact Hdirect | exact Hsourced].
Defined.

(* ================================================================== *)
(** * Coherence rules of the orchestrator *)
(* ================================================================== *)

Lemma MBTIType_cases (s : string) :
  is_MBTIType s = true -> In s MBTIType_values.
Proof.
  unfold is_MBTIType. intros H.
  apply existsb_exists in H. destruct H as (x & Hin & Heq).
  apply String.eqb_eq in Heq. now subst.
Qed.

(** On a member of [MBTIType] the letter E can only be the first one, so
    [type.includes('E')] reads the E/I letter. *)
Lemma includes_E_first_letter (s : string) :
  is_MBTIType s = true ->
  includes "E" s = match String.get 0 s with
                   | Some c => Ascii.eqb c "E"%char
                   | None => false
                   end.
Proof.
  intros H. apply MBTIType_cases in H. unfold MBTIType_values in H.
  repeat (destruct H as [<- | H]; [reflexivity |]).
  destruct H.
Qed.

(** Outside the sixteen type codes the two readings part: a string
    that starts with I and carries an E further on passes
    [includes('E')]. *)
Remark includes_reads_every_position :
  includes "E" "ISEP" = true /\ String.get 0 "ISEP" = Some "I"%char /\
  is_MBTIType "ISEP" = false.
Proof. repeat split. Qed.

(** C3.  On a profile whose MBTI type is one of the sixteen type codes,
    [validateSystemConsistency] is the run of the three rules A, B, C in
    this order from a score of 100: each violated rule appends its
    warning and subtracts its penalty (10, 15, 10); the score returned
    is floored at 0, the warnings are those of the violated rules in the
    order of the rules, and [isConsistent] holds exactly when there is
    no warning. *)
Theorem validateSystemConsistency_runs_rules (systems : Systems)
    (Htype : is_MBTIType systems.(mbti).(MBTI.type) = true) :
  let r := PersonalityEngine.validateSystemConsistency systems in
  r = CoherenceRules.report systems /\
  r.(warnings) = raised systems /\
  same r.(consistencyScore) (Num (Qmax 0 (100 - penalties systems))) /\
  (r.(isConsistent) = true <-> r.(warnings) = []).
Proof.
  cbv zeta. unfold PersonalityEngine.validateSystemConsistency.
  rewrite (includes_E_first_letter _ Htype).
  unfold CoherenceRules.report, raised, penalties, CoherenceRules.rules.
  cbn [fold_left filter].
  unfold CoherenceRules.apply_rule.
  cbn [CoherenceRules.violated CoherenceRules.ruleA CoherenceRules.ruleB
       CoherenceRules.ruleC CoherenceRules.warning CoherenceRules.penalty].
  fold (CoherenceRules.letterEI systems).
  fold (CoherenceRules.saysExtravert systems).
  fold (CoherenceRules.darkTriadMean systems).
  destruct (negb (Bool.eqb (CoherenceRules.saysExtravert systems)
                           (systems.(bigFive).(extraversion) >? 50)));
    destruct ((systems.(hexaco).(HEXACO.honestyHumility) >? 70)
              && (CoherenceRules.darkTriadMean systems >? 50));
    destruct ((systems.(tci).(TCI.character).(TCI.selfDirectedness) >? 70)
              && (systems.(tci).(TCI.temperament).(TCI.impulsiveness) >? 70));
    (split; [reflexivity |]);
    (split; [reflexivity |]);
    (split; [vm_compute; reflexivity |]);
    cbn; split; (reflexivity || discriminate).
Qed.

Lemma validateSystemConsistency_runs_rules_witness :
  is_MBTIType scenario4.(mbti).(MBTI.type) = true /\
  PersonalityEngine.validateSystemConsistency scenario4 = CoherenceRules.report scenario4 /\
  (PersonalityEngine.validateSystemConsistency scenario4).(warnings)
  = [PersonalityEngine.warningA] /\
  same (PersonalityEngine.validateSystemConsistency scenario4).(consistencyScore) 90.
Proof.
  split; [reflexivity |].
  destruct (validateSystemConsistency_runs_rules scenario4 eq_refl)
    as (Hreport & Hwarnings & Hscore & _).
  split; [exact Hreport |].
  split; [exact Hwarnings | exact Hscore].
Defined.

(* ================================================================== *)
(** * MBTI consistency of the cross-system validator *)
(* ================================================================== *)

(** The loop counts the indices that pass its test. *)
Lemma count_loop (test : nat -> bool) (indices : list nat) (q : Q) :
  exists q' : Q,
    fold_left (fun matchCount i => if test i then matchCount + 1 else matchCount)
              indices (Num q) = Num q' /\
    (q' == q + inject_Z (Z.of_nat (List.length (filter test indices))))%Q.
Proof.
  revert q. induction indices as [| i indices IH]; intros q.
  - exists q. split; [reflexivity |]. cbn [filter List.length]. cbn. ring.
  - cbn [fold_left filter]. destruct (test i).
    + destruct (IH (q + 1)%Q) as (q' & Hfold & Hq').
      exists q'. split; [exact Hfold |].
      rewrite Hq'. cbn [List.length]. rewrite Nat2Z.inj_succ.
      unfold Z.succ. rewrite inject_Z_plus. ring.
    + exact (IH q).
Qed.

(** Every type code the converter derives has four letters. *)
Lemma derived_type_length (t : BigFiveTraits) :
  String.length (MBTI.type (MBTIConverter.convertBigFiveToMBTI t)) = 4%nat.
Proof.
  unfold MBTIConverter.convertBigFiveToMBTI. cbv zeta. cbn [MBTI.type].
  destruct (t.(extraversion) >? 50), (t.(openness) >? 50),
    (t.(agreeableness) >? 50), (t.(conscientiousness) >? 50); reflexivity.
Qed.

(** Against a code of four letters, the loop's test [actual[i] ===
    derived[i]] holds exactly when both codes carry the same letter at
    [i]. *)
Lemma strict_eq_same_letter (actual derived : string) (i : nat) :
  String.length derived = 4%nat -> (i < 4)%nat ->
  strict_eq (char_at actual i) (char_at derived i) = same_letter_at actual derived i.
Proof.
  intros Hlen Hi. unfold char_at, same_letter_at.
  destruct derived as [| d0 [| d1 [| d2 [| d3 [| d4 rest]]]]]; try discriminate Hlen.
  destruct i as [| [| [| [| i]]]]; [| | | | lia];
    cbn [String.get]; destruct (String.get _ actual); reflexivity.
Qed.

Lemma same_letter_refl (s : string) (i : nat) :
  (i < String.length s)%nat -> same_letter_at s s i = true.
Proof.
  unfold same_letter_at. revert i.
  induction s as [| ch s IH]; intros i Hi; [cbn in Hi; lia |].
  destruct i as [| i]; cbn [String.get].
  - apply Ascii.eqb_refl.
  - apply IH. cbn in Hi. lia.
Qed.

(** C9.  [calculateMBTIConsistency bigFive mbti] is 25 times the number
    of positions, out of four, at which the supplied type code and the
    code re-derived from [bigFive] by [MBTIConverter] carry the same
    letter, hence one of 0, 25, 50, 75, 100; when the supplied profile is
    the one the converter derives from the same input, valid or not, the
    result is 100. *)
Theorem calculateMBTIConsistency_counts_letters
    (bigFive : BigFiveTraits) (mbti : MBTIProfile) :
  let derived := MBTIConverter.convertBigFiveToMBTI bigFive in
  let k := matching_letters (MBTI.type mbti) (MBTI.type derived) in
  same (CrossSystemValidator.calculateMBTIConsistency bigFive mbti)
       (Num (25 * inject_Z (Z.of_nat k))) /\
  (k <= 4)%nat /\
  Exists (same (CrossSystemValidator.calculateMBTIConsistency bigFive mbti))
         [Num 0; Num 25; Num 50; Num 75; Num 100] /\
  same (CrossSystemValidator.calculateMBTIConsistency bigFive derived) 100.
Proof.
  cbv zeta.
  assert (Hcount : forall m : MBTIProfile,
    same (CrossSystemValidator.calculateMBTIConsistency bigFive m)
         (Num (25 * inject_Z (Z.of_nat
            (matching_letters (MBTI.type m)
               (MBTI.type (MBTIConverter.convertBigFiveToMBTI bigFive))))))).
  { intros m. unfold CrossSystemValidator.calculateMBTIConsistency. cbv zeta.
    destruct (count_loop
                (fun i => strict_eq (char_at (MBTI.type m) i)
                            (char_at (MBTI.type (MBTIConverter.convertBigFiveToMBTI bigFive)) i))
                (seq 0 4) 0) as (q' & -> & Hq').
    rewrite (filter_ext_in _ (same_letter_at (MBTI.type m)
               (MBTI.type (MBTIConverter.convertBigFiveToMBTI bigFive)))) in Hq'.
    - js_eval. unfold matching_letters. change (seq 0 4) with [0; 1; 2; 3]%nat in Hq'.
      rewrite Hq'. field.
    - intros i Hi. apply strict_eq_same_letter; [apply derived_type_length |].
      apply in_seq in Hi. lia. }
  assert (Hk : forall m : MBTIProfile,
    (matching_letters (MBTI.type m)
       (MBTI.type (MBTIConverter.convertBigFiveToMBTI bigFive)) <= 4)%nat).
  { intros m. unfold matching_letters.
    etransitivity; [apply filter_length_le | reflexivity]. }
  split; [apply Hcount |]. split; [apply Hk |]. split.
  - specialize (Hcount mbti). specialize (Hk mbti).
    revert Hcount Hk.
    generalize (matching_letters (MBTI.type mbti)
                  (MBTI.type (MBTIConverter.convertBigFiveToMBTI bigFive))).
    generalize (CrossSystemValidator.calculateMBTIConsistency bigFive mbti).
    intros v k Hv Hk.
    destruct k as [| [| [| [| [| k]]]]]; [| | | | | lia].
    + apply Exists_cons_hd. exact Hv.
    + apply Exists_cons_tl, Exists_cons_hd. exact Hv.
    + do 2 apply Exists_cons_tl. apply Exists_cons_hd. exact Hv.
    + do 3 apply Exists_cons_tl. apply Exists_cons_hd. exact Hv.
    + do 4 apply Exists_cons_tl. apply Exists_cons_hd. exact Hv.
  - specialize (Hcount (MBTIConverter.convertBigFiveToMBTI bigFive)).
    assert (E : matching_letters
                  (MBTI.type (MBTIConverter.convertBigFiveToMBTI bigFive))
                  (MBTI.type (MBTIConverter.convertBigFiveToMBTI bigFive)) = 4%nat).
    { unfold matching_letters.
      pose proof (derived_type_length bigFive) as Hlen.
      cbn [filter]. rewrite !same_letter_refl by lia. reflexivity. }
    rewrite E in Hcount. exact Hcount.
Qed.

(* ================================================================== *)
(** * MBTI: type codes and the approximate inverse *)
(* ================================================================== *)

(** X1.  Decoding one of the sixteen type codes to Big Five traits and
    converting back returns the same code; every re-derived dimension
    has strength 50 and the confidence is 70. *)
Theorem MBTI_decode_encode (s : string) (Hs : is_MBTIType s = true) :
  let p := MBTIConverter.convertBigFiveToMBTI (MBTIConverter.convertMBTIToBigFive s) in
  MBTI.type p = s /\
  Forall (fun v => same v 50)
         [strength (EI (MBTI.dimensions p)); strength (SN (MBTI.dimensions p));
          strength (TF (MBTI.dimensions p)); strength (JP (MBTI.dimensions p))] /\
  same (MBTI.confidence p) 70.
Proof.
  apply MBTIType_cases in Hs. unfold MBTIType_values in Hs. cbv zeta.
  repeat (destruct Hs as [<- | Hs];
          [split; [reflexivity | split; [repeat constructor | vm_compute; reflexivity]] |]).
  destruct Hs.
Qed.

Lemma MBTI_decode_encode_witness :
  is_MBTIType "ENFJ" = true /\
  MBTI.type (MBTIConverter.convertBigFiveToMBTI
               (MBTIConverter.convertMBTIToBigFive "ENFJ")) = "ENFJ".
Proof.
  split; [reflexivity |].
  exact (proj1 (MBTI_decode_encode "ENFJ" eq_refl)).
Defined.

Lemma derived_type_cases (t : BigFiveTraits) :
  In (MBTI.type (MBTIConverter.convertBigFiveToMBTI t)) MBTIType_values.
Proof.
  unfold MBTIConverter.convertBigFiveToMBTI. cbv zeta. cbn [MBTI.type].
  destruct (t.(extraversion) >? 50), (t.(openness) >? 50),
    (t.(agreeableness) >? 50), (t.(conscientiousness) >? 50);
    cbn; tauto.
Qed.

(** X2.  Whatever the input (out-of-range, [NaN] and missing fields
    included), both MBTI converters return one of the sixteen type
    codes, the code is the concatenation of the four preferred poles in
    the order EI, SN, TF, JP, and decoding the code and converting again
    gives the same code. *)
Theorem MBTI_type_well_formed (t : BigFiveTraits) :
  let p := PersonalityEngine.convertBigFiveToMBTI t in
  let p' := MBTIConverter.convertBigFiveToMBTI t in
  is_MBTIType (MBTI.type p) = true /\ is_MBTIType (MBTI.type p') = true /\
  MBTI.type p = preference_code p /\ MBTI.type p' = preference_code p' /\
  MBTI.type (MBTIConverter.convertBigFiveToMBTI
               (MBTIConverter.convertMBTIToBigFive (MBTI.type p'))) = MBTI.type p'.
Proof.
  cbv zeta. change (PersonalityEngine.convertBigFiveToMBTI t)
    with (MBTIConverter.convertBigFiveToMBTI t).
  assert (Hin := derived_type_cases t).
  assert (Hty : is_MBTIType (MBTI.type (MBTIConverter.convertBigFiveToMBTI t)) = true).
  { unfold is_MBTIType. apply existsb_exists.
    exists (MBTI.type (MBTIConverter.convertBigFiveToMBTI t)).
    split; [exact Hin | apply String.eqb_refl]. }
  split; [exact Hty |]. split; [exact Hty |].
  split; [reflexivity |]. split; [reflexivity |].
  unfold MBTIType_values in Hin.
  repeat (destruct Hin as [<- | Hin]; [reflexivity |]).
  destruct Hin.
Qed.

(** X3.  The Big Five object decoded from an MBTI type never passes the
    validation, whatever the type string: neuroticism is not set, so
    [generateAllSystems] throws on it. *)
Theorem decoded_traits_are_invalid (s : string) :
  let t := MBTIConverter.convertMBTIToBigFive s in
  t.(neuroticism) = Undefined /\
  Forall (fun v => v = Num 75 \/ v = Num 25)
         [t.(extraversion); t.(openness); t.(agreeableness); t.(conscientiousness)] /\
  PersonalityEngine.validateBigFive t = false /\
  PersonalityEngine.generateAllSystems t = Throw "Invalid Big Five traits provided".
Proof.
  cbv zeta.
  assert (Hinv : PersonalityEngine.validateBigFive (MBTIConverter.convertMBTIToBigFive s)
                 = false).
  { apply validateBigFive_false_iff. unfold fields.
    do 4 apply Exists_cons_tl. apply Exists_cons_hd. left. reflexivity. }
  split; [reflexivity |]. split.
  - unfold MBTIConverter.convertMBTIToBigFive.
    cbn [extraversion openness agreeableness conscientiousness].
    repeat (apply Forall_cons;
            [match goal with
             | |- context [if ?b then _ else _] => destruct b; [left | right]; reflexivity
             end |]).
    apply Forall_nil.
  - split; [exact Hinv |].
    unfold PersonalityEngine.generateAllSystems. rewrite Hinv. reflexivity.
Qed.

(* ================================================================== *)
(** * The duplicated converters *)
(* ================================================================== *)

Lemma Object_values_defined (t : BigFiveTraits) (v : value) :
  In v (Object_values t) -> HEXACOCalculator.is_number v = true.
Proof.
  unfold Object_values. intros H. apply filter_In in H. destruct H as [_ H].
  destruct v; [reflexivity | reflexivity | discriminate H].
Qed.

Lemma calculateFromBigFive_is_convertBigFiveToHEXACO (t : BigFiveTraits) :
  HEXACOCalculator.calculateFromBigFive t = PersonalityEngine.convertBigFiveToHEXACO t.
Proof.
  unfold HEXACOCalculator.calculateFromBigFive, PersonalityEngine.convertBigFiveToHEXACO.
  f_equal.
  unfold HEXACOCalculator.getConfidence, PersonalityEngine.calculateHEXACOConfidence.
  cbv zeta.
  rewrite (filter_ext_in _ (fun score => (score <? 20) || (score >? 80)) (Object_values t));
    [reflexivity |].
  intros v Hv. now rewrite (Object_values_defined t v Hv).
Qed.

(** X4.  [HEXACOCalculator.calculateFromBigFive] and
    [PersonalityEngine.convertBigFiveToHEXACO] return the same profile on
    every input, valid or not: the [typeof] guard of the calculator's
    confidence never rejects a value of a Big Five object. *)
Theorem HEXACO_converters_agree (t : BigFiveTraits) :
  HEXACOCalculator.calculateFromBigFive t = PersonalityEngine.convertBigFiveToHEXACO t /\
  HEXACOCalculator.getConfidence t = PersonalityEngine.calculateHEXACOConfidence t.
Proof.
  pose proof (calculateFromBigFive_is_convertBigFiveToHEXACO t) as H.
  split; [exact H |].
  exact (f_equal HEXACO.confidence H).
Qed.

(** X5.  The temperament and character engines of [tci-engines.ts]
    compute the two sub-records of the TCI profile of the orchestrator,
    on every input. *)
Theorem TCI_engines_agree (t : BigFiveTraits) :
  TemperamentEngine.calculateFromBigFive t
  = TCI.temperament (PersonalityEngine.convertBigFiveToTCI t) /\
  CharacterEngine.calculateFromBigFive t
  = TCI.character (PersonalityEngine.convertBigFiveToTCI t).
Proof. split; reflexivity. Qed.

(* ================================================================== *)
(** * Relations between the derived fields *)
(* ================================================================== *)



(* ================================================================== *)
(** * The orchestrator checked against its own output *)
(* ================================================================== *)

Lemma ruleC_silent (c n : Q) :
  (0 <= c <= 100)%Q -> (0 <= n <= 100)%Q ->
  ((Num (c * 0.6 + (100 - n) * 0.4) >? 70)
   && (Num ((100 - c) * 0.8 + n * 0.2) >? 70))%bool = false.
Proof.
  intros Hc Hn. cbn [JS.gt JS.lt].
  destruct (Qle_bool_cases (c * 0.6 + (100 - n) * 0.4) 70) as [[-> H1] | [-> H1]];
    [reflexivity |].
  destruct (Qle_bool_cases ((100 - c) * 0.8 + n * 0.2) 70) as [[-> H2] | [-> H2]];
    [reflexivity |].
  exfalso. lra.
Qed.

(** X7.  For every valid input, checking the profile that
    [generateAllSystems] returns never raises the extraversion warning
    nor the self-directedness warning: the report either has no warning
    and the score 100, or it has the honesty-humility warning alone and
    the score 85. *)
Theorem own_output_consistency (t : BigFiveTraits)
    (Hvalid : PersonalityEngine.validateBigFive t = true) :
  exists s : Systems,
    PersonalityEngine.generateAllSystems t = Return s /\
    let r := PersonalityEngine.validateSystemConsistency s in
    (r.(warnings) = [] /\ r.(isConsistent) = true /\ same r.(consistencyScore) 100) \/
    (r.(warnings) = [PersonalityEngine.warningB] /\ r.(isConsistent) = false /\
     same r.(consistencyScore) 85).
Proof.
  unfold PersonalityEngine.generateAllSystems. rewrite Hvalid. cbn [negb].
  eexists. split; [reflexivity |].
  destruct (valid_inv t Hvalid) as (o & c & e & a & n & -> & Ho & Hc & He & Ha & Hn).
  cbv zeta. unfold PersonalityEngine.validateSystemConsistency.
  cbn [bigFive mbti hexaco darkTriad tci].
  assert (HA : Bool.eqb
            (includes "E" (MBTI.type (PersonalityEngine.convertBigFiveToMBTI
                                        (mkBigFive (Num o) (Num c) (Num e) (Num a) (Num n)))))
            (extraversion (mkBigFive (Num o) (Num c) (Num e) (Num a) (Num n)) >? 50) = true).
  { unfold PersonalityEngine.convertBigFiveToMBTI. cbv zeta.
    cbn [MBTI.type extraversion openness agreeableness conscientiousness].
    destruct (Num e >? 50), (Num o >? 50), (Num a >? 50), (Num c >? 50); reflexivity. }
  rewrite HA. cbn [negb].
  assert (HC : ((TCI.selfDirectedness (TCI.character (PersonalityEngine.convertBigFiveToTCI
                   (mkBigFive (Num o) (Num c) (Num e) (Num a) (Num n)))) >? 70)
                && (TCI.impulsiveness (TCI.temperament (PersonalityEngine.convertBigFiveToTCI
                      (mkBigFive (Num o) (Num c) (Num e) (Num a) (Num n)))) >? 70))%bool
               = false).
  { unfold PersonalityEngine.convertBigFiveToTCI,
      PersonalityEngine.calculateSelfDirectedness, PersonalityEngine.calculateImpulsiveness.
    cbn [TCI.character TCI.temperament TCI.selfDirectedness TCI.impulsiveness
         conscientiousness neuroticism JS.add JS.sub JS.mul JS.lift2].
    now apply ruleC_silent. }
  rewrite HC.
  match goal with
  | |- context [if ?b then _ else _] => destruct b
  end.
  - right. split; [reflexivity |]. split; [reflexivity | vm_compute; reflexivity].
  - left. split; [reflexivity |]. split; [reflexivity | vm_compute; reflexivity].
Qed.

(** The second case of X7 occurs: a valid, agreeable-enough, calm and
    conscientious extravert is flagged by the honesty-humility rule. *)
Lemma own_output_consistency_witness :
  PersonalityEngine.validateBigFive principled_schemer = true /\
  exists s : Systems,
    PersonalityEngine.generateAllSystems principled_schemer = Return s /\
    ((PersonalityEngine.validateSystemConsistency s).(warnings) = [] /\
     (PersonalityEngine.validateSystemConsistency s).(isConsistent) = true /\
     same (PersonalityEngine.validateSystemConsistency s).(consistencyScore) 100
     \/
     (PersonalityEngine.validateSystemConsistency s).(warnings)
     = [PersonalityEngine.warningB] /\
     (PersonalityEngine.validateSystemConsistency s).(isConsistent) = false /\
     same (PersonalityEngine.validateSystemConsistency s).(consistencyScore) 85).
Proof.
  split; [reflexivity |].
  exact (own_output_consistency principled_schemer eq_refl).
Defined.

Remark honesty_rule_fires_on_own_output :
  exists s : Systems,
    PersonalityEngine.generateAllSystems principled_schemer = Return s /\
    (PersonalityEngine.validateSystemConsistency s).(warnings)
    = [PersonalityEngine.warningB].
Proof. eexists. split; [reflexivity | vm_compute; reflexivity]. Qed.

(* ================================================================== *)
(** * HEXACO and overall consistency of the cross-system validator *)
(* ================================================================== *)


Lemma HEXACOConsistency_eval (bigFive : BigFiveTraits) (hexaco : HEXACOProfile) :
  CrossSystemValidator.calculateHEXACOConsistency bigFive hexaco
  = (Num 0
     + (100 - Math_abs (nullish bigFive.(extraversion) 0
                        - nullish hexaco.(HEXACO.extraversion) 0))
     + (100 - Math_abs (nullish bigFive.(agreeableness) 0
                        - nullish hexaco.(HEXACO.agreeableness) 0))
     + (100 - Math_abs (nullish bigFive.(conscientiousness) 0
                        - nullish hexaco.(HEXACO.conscientiousness) 0))
     + (100 - Math_abs (nullish bigFive.(openness) 0
                        - nullish hexaco.(HEXACO.openness) 0))) / 4.
Proof. reflexivity. Qed.

Lemma nullish_absent_or_within (v : value) :
  absent_or_within v -> exists q : Q, nullish v 0 = Num q /\ (0 <= q <= 100)%Q.
Proof.
  intros [-> | H].
  - exists 0%Q. split; [reflexivity | lra].
  - destruct v as [q | |]; cbn in H; try tauto.
    exists q. split; [reflexivity | exact H].
Qed.

(** X8.  When each of the four compared traits (extraversion,
    agreeableness, conscientiousness, openness) is either absent or a
    number of [[0, 100]] on both sides, the HEXACO consistency is a number
    of [[0, 100]]; an absent trait counts as 0. *)
Theorem calculateHEXACOConsistency_range (bigFive : BigFiveTraits) (hexaco : HEXACOProfile)
    (Hb : Forall absent_or_within
            [bigFive.(extraversion); bigFive.(agreeableness);
             bigFive.(conscientiousness); bigFive.(openness)])
    (Hh : Forall absent_or_within
            [hexaco.(HEXACO.extraversion); hexaco.(HEXACO.agreeableness);
             hexaco.(HEXACO.conscientiousness); hexaco.(HEXACO.openness)]) :
  within 0 100 (CrossSystemValidator.calculateHEXACOConsistency bigFive hexaco).
Proof.
  rewrite HEXACOConsistency_eval.
  repeat match goal with
  | H : Forall _ (_ :: _) |- _ => apply Forall_cons_iff in H; destruct H as [? H]
  | H : absent_or_within _ |- _ =>
      apply nullish_absent_or_within in H; destruct H as (? & -> & ?)
  end.
  js_eval. q_solve.
Qed.

Lemma calculateHEXACOConsistency_range_witness :
  within 0 100
    (CrossSystemValidator.calculateHEXACOConsistency
       (MBTIConverter.convertMBTIToBigFive "ENFJ")
       (PersonalityEngine.convertBigFiveToHEXACO neutral)).
Proof.
  apply calculateHEXACOConsistency_range.
  - repeat (apply Forall_cons; [right; cbn; lra |]). apply Forall_nil.
  - repeat (apply Forall_cons; [right; cbn; lra |]). apply Forall_nil.
Defined.







(* ================================================================== *)
(** * Content warnings *)
(* ================================================================== *)

Lemma direct_scores_bounds (o c e a n : Q) :
  (0 <= o <= 100)%Q -> (0 <= c <= 100)%Q -> (0 <= e <= 100)%Q ->
  (0 <= a <= 100)%Q -> (0 <= n <= 100)%Q ->
  exists m r p : Q,
    PersonalityEngine.convertBigFiveToDarkTriad
      (mkBigFive (Num o) (Num c) (Num e) (Num a) (Num n))
    = {| DarkTriad.machiavellianism := Num m;
         DarkTriad.narcissism := Num r;
         DarkTriad.psychopathy := Num p;
         DarkTriad.overallDarkness := 0;
         DarkTriad.riskLevel := LOW;
         DarkTriad.confidence :=
           PersonalityEngine.calculateDarkTriadConfidence
             (mkBigFive (Num o) (Num c) (Num e) (Num a) (Num n)) |} /\
    (0 <= m <= 93)%Q /\ (0 <= r <= 81)%Q /\ (0 <= p <= 62.5)%Q.
Proof.
  intros Ho Hc He Ha Hn.
  unfold PersonalityEngine.convertBigFiveToDarkTriad,
    PersonalityEngine.calculateMachiavellianism,
    PersonalityEngine.calculateNarcissism, PersonalityEngine.calculatePsychopathy.
  js_eval. do 3 eexists. split; [reflexivity |].
  split; [| split]; q_solve.
Qed.

(** X11.  For every valid input, the three scores of the direct Dark
    Triad conversion add up to at most 236.5, so the content warning of
    the profile the orchestrator produces is never high and its age
    restriction is 0, 13 or 16, never 18. *)
Theorem direct_darkTriad_never_high (t : BigFiveTraits)
    (Hvalid : PersonalityEngine.validateBigFive t = true) :
  let d := PersonalityEngine.convertBigFiveToDarkTriad t in
  let w := ContentWarningSystem.evaluateContent d in
  (darkTriad_total d <= 236.5)%Q /\
  ContentWarningSystem.warningLevel w <> "high" /\
  In (ContentWarningSystem.ageRestriction w) [Num 0; Num 13; Num 16].
Proof.
  destruct (valid_inv t Hvalid) as (o & c & e & a & n & -> & Ho & Hc & He & Ha & Hn).
  cbv zeta.
  destruct (direct_scores_bounds o c e a n Ho Hc He Ha Hn)
    as (m & r & p & -> & Hm & Hr & Hp).
  unfold darkTriad_total, ContentWarningSystem.evaluateContent.
  cbn [DarkTriad.machiavellianism DarkTriad.narcissism DarkTriad.psychopathy the].
  js_eval. split; [lra |].
  destruct (Qle_bool_cases (m + r + p) 240) as [[-> H240] | [-> H240]];
    [| exfalso; lra].
  cbn [negb].
  destruct (Qle_bool (m + r + p) 180); cbn [negb];
    [destruct (Qle_bool (m + r + p) 120); cbn [negb] |];
    (split; [discriminate | cbn; tauto]).
Qed.

Lemma direct_darkTriad_never_high_witness :
  PersonalityEngine.validateBigFive principled_schemer = true /\
  ContentWarningSystem.warningLevel
    (ContentWarningSystem.evaluateContent
       (PersonalityEngine.convertBigFiveToDarkTriad principled_schemer)) <> "high".
Proof.
  split; [reflexivity |].
  exact (proj1 (proj2 (direct_darkTriad_never_high principled_schemer eq_refl))).
Defined.

(** X12.  A Dark Triad profile with a score that is [NaN] or absent gets
    no content warning at all: the level is none and the age restriction
    is 0, whatever the other scores are. *)
Theorem evaluateContent_without_number (d : DarkTriadProfile)
    (Hd : Exists (fun v => v = NaN \/ v = Undefined) (darkTriad_scores d)) :
  ContentWarningSystem.warningLevel (ContentWarningSystem.evaluateContent d) = "none" /\
  ContentWarningSystem.ageRestriction (ContentWarningSystem.evaluateContent d) = Num 0.
Proof.
  destruct d as [m r p od rl cf]. unfold darkTriad_scores in Hd.
  cbn [DarkTriad.machiavellianism DarkTriad.narcissism DarkTriad.psychopathy] in Hd.
  unfold ContentWarningSystem.evaluateContent.
  cbn [DarkTriad.machiavellianism DarkTriad.narcissism DarkTriad.psychopathy].
  destruct m as [m | |], r as [r | |], p as [p | |];
    try (split; reflexivity).
  exfalso.
  repeat match goal with
  | H : Exists _ (_ :: _) |- _ => apply Exists_cons in H; destruct H as [[H | H] | H]
  | H : Exists _ [] |- _ => apply Exists_nil in H; exact H
  | H : Num _ = _ |- _ => discriminate H
  end.
Qed.

Lemma evaluateContent_without_number_witness :
  ContentWarningSystem.warningLevel
    (ContentWarningSystem.evaluateContent
       {| DarkTriad.machiavellianism := 100;
          DarkTriad.narcissism := NaN;
          DarkTriad.psychopathy := 100;
          DarkTriad.overallDarkness := 0;
          DarkTriad.riskLevel := LOW;
          DarkTriad.confidence := 80 |}) = "none".
Proof.
  refine (proj1 (evaluateContent_without_number _ _)).
  apply Exists_cons_tl, Exists_cons_hd. left. reflexivity.
Defined.

(** X13.  On profiles with numeric scores the age restriction grows with
    the sum of the three scores; and when the three scores lie in
    [[0, 100]], a high warning needs every one of them above 40. *)
Theorem evaluateContent_monotone (d d' : DarkTriadProfile)
    (Hd : numeric_scores d) (Hd' : numeric_scores d')
    (Hle : (darkTriad_total d <= darkTriad_total d')%Q) :
  (the (ContentWarningSystem.ageRestriction (ContentWarningSystem.evaluateContent d))
   <= the (ContentWarningSystem.ageRestriction (ContentWarningSystem.evaluateContent d')))%Q /\
  (Forall (within 0 100) (darkTriad_scores d) ->
   ContentWarningSystem.warningLevel (ContentWarningSystem.evaluateContent d) = "high" ->
   Forall (fun v => 40 < the v)%Q (darkTriad_scores d)).
Proof.
  destruct d as [m r p od rl cf], d' as [m' r' p' od' rl' cf'].
  unfold numeric_scores, darkTriad_scores, darkTriad_total in *.
  cbn [DarkTriad.machiavellianism DarkTriad.narcissism DarkTriad.psychopathy] in *.
  repeat match goal with
  | H : Forall _ (_ :: _) |- _ => apply Forall_cons_iff in H; destruct H as [[? ->] H]
  end.
  cbn [the] in Hle.
  unfold ContentWarningSystem.evaluateContent.
  cbn [DarkTriad.machiavellianism DarkTriad.narcissism DarkTriad.psychopathy].
  js_eval. split.
  - q_branch;
      cbn [ContentWarningSystem.ageRestriction the]; lra.
  - intros Hr Hhigh.
    repeat match goal with
    | H : Forall _ (_ :: _) |- _ => apply Forall_cons_iff in H; destruct H as [? H]
    end.
    cbn [within] in *.
    revert Hhigh. q_branch; cbn [ContentWarningSystem.warningLevel];
      try discriminate.
    intros _. repeat constructor; cbn [the]; lra.
Qed.

Lemma evaluateContent_monotone_witness :
  (the (ContentWarningSystem.ageRestriction
          (ContentWarningSystem.evaluateContent
             (PersonalityEngine.convertBigFiveToDarkTriad neutral)))
   <= the (ContentWarningSystem.ageRestriction
             (ContentWarningSystem.evaluateContent
                (PersonalityEngine.convertBigFiveToDarkTriad principled_schemer))))%Q.
Proof.
  refine (proj1 (evaluateContent_monotone _ _ _ _ _)).
  - repeat (apply Forall_cons; [eexists; reflexivity |]). apply Forall_nil.
  - repeat (apply Forall_cons; [eexists; reflexivity |]). apply Forall_nil.
  - vm_compute. discriminate.
Defined.

(* ================================================================== *)
(** * Honesty-humility insights *)
(* ================================================================== *)

Lemma lt_weaken (v : value) (x y : Q) :
  (x <= y)%Q -> (v <? Num x) = true -> (v <? Num y) = true.
Proof.
  destruct v as [q | |]; cbn [JS.lt]; try discriminate.
  intros Hxy H. apply negb_true_iff in H. apply Qle_bool_false in H.
  apply negb_true_iff. destruct (Qle_bool_cases y q) as [[_ Hle] | [-> _]];
    [exfalso; lra | reflexivity].
Qed.

(** X14.  [suggestAntagonistArchetype] returns one of five names, and
    every name other than the fallback (Morally Ambiguous Character) is
    given only to a profile with villain potential (honesty-humility
    below 30); a Calculating Mastermind moreover is predicted both
    deceptive tactics and cold, calculated decision-making. *)
Theorem named_archetype_has_villain_potential (h : HEXACOProfile) :
  In (HonestyHumilityProcessor.suggestAntagonistArchetype h) archetype_names /\
  (HonestyHumilityProcessor.suggestAntagonistArchetype h <> "Morally Ambiguous Character" ->
   HonestyHumilityProcessor.detectVillainPotential h = true) /\
  (HonestyHumilityProcessor.suggestAntagonistArchetype h = "Calculating Mastermind" ->
   In "Deceptive tactics" (HonestyHumilityProcessor.predictManipulationBehavior h) /\
   In "Cold, calculated decision-making"
      (HonestyHumilityProcessor.predictManipulationBehavior h)).
Proof.
  unfold HonestyHumilityProcessor.suggestAntagonistArchetype,
    HonestyHumilityProcessor.detectVillainPotential,
    HonestyHumilityProcessor.predictManipulationBehavior, archetype_names.
  cbv zeta.
  pose proof (lt_weaken h.(HEXACO.honestyHumility) 20 30) as Hw.
  destruct (h.(HEXACO.honestyHumility) <? 20) eqn:H20.
  - rewrite Hw by (lra || reflexivity).
    destruct (h.(HEXACO.emotionality) <? 30), (h.(HEXACO.extraversion) >? 70),
      (h.(HEXACO.agreeableness) <? 30), (h.(HEXACO.emotionality) >? 70);
      cbn; repeat split; intros; try tauto; try discriminate.
  - clear Hw.
    destruct (h.(HEXACO.honestyHumility) <? 30),
      (h.(HEXACO.emotionality) <? 30), (h.(HEXACO.extraversion) >? 70),
      (h.(HEXACO.agreeableness) <? 30), (h.(HEXACO.emotionality) >? 70);
      cbn; repeat split; intros; try tauto; try discriminate.
Qed.

(** X15.  [predictManipulationBehavior] lists the two deception
    behaviours exactly for the profiles with villain potential, always
    together; the list has at most five entries, none twice, and it is
    empty exactly when none of the four tests fires. *)
Theorem predictManipulationBehavior_shape (h : HEXACOProfile) :
  let l := HonestyHumilityProcessor.predictManipulationBehavior h in
  (In "Deceptive tactics" l <-> HonestyHumilityProcessor.detectVillainPotential h = true) /\
  (In "Exploits trust for personal gain" l <->
   HonestyHumilityProcessor.detectVillainPotential h = true) /\
  (List.length l <= 5)%nat /\ NoDup l /\
  (l = [] <->
   (h.(HEXACO.honestyHumility) <? 30) = false /\ (h.(HEXACO.agreeableness) <? 30) = false /\
   (h.(HEXACO.extraversion) >? 70) = false /\ (h.(HEXACO.emotionality) <? 30) = false).
Proof.
  unfold HonestyHumilityProcessor.predictManipulationBehavior,
    HonestyHumilityProcessor.detectVillainPotential.
  cbv zeta.
  destruct (h.(HEXACO.honestyHumility) <? 30), (h.(HEXACO.agreeableness) <? 30),
    (h.(HEXACO.extraversion) >? 70), (h.(HEXACO.emotionality) <? 30);
    cbn [app List.length];
    (split; [cbn; split; intros; try reflexivity; try tauto;
             repeat match goal with H : _ \/ _ |- _ => destruct H end;
             try discriminate; tauto |]);
    (split; [cbn; split; intros; try reflexivity; try tauto;
             repeat match goal with H : _ \/ _ |- _ => destruct H end;
             try discriminate; tauto |]);
    (split; [lia |]);
    (split; [repeat (apply NoDup_cons;
                     [cbn; intros Hin;
                      repeat match goal with H : _ \/ _ |- _ => destruct H end;
                      try discriminate; tauto |]);
             apply NoDup_nil |]);
    (split; [intros; try discriminate; repeat split |
             intros (? & ? & ? & ?); try discriminate; reflexivity]).
Qed.

(* ================================================================== *)
(** * Cultural adaptation *)
(* ================================================================== *)

(** The adapted value of a trait [x] of [[0, 100]]:
    [Math.min(100, Math.round(x * 1.1))]. *)
Lemma adapted_trait (x : Q) :
  (0 <= x <= 100)%Q ->
  exists z : Z,
    Math_min 100 (Math_round (Num x * 1.1)) = Num (inject_Z z) /\
    (0 <= inject_Z z <= 100)%Q /\ (x - (1 # 2) <= inject_Z z)%Q /\
    (inject_Z z <= x * 1.1 + (1 # 2))%Q /\
    (forall k : Z, x = inject_Z k -> (x <= inject_Z z)%Q).
Proof.
  intros Hx. cbn [JS.mul JS.lift2 JS.Math_round JS.Math_min].
  set (z := Qfloor (x * 1.1 + (1 # 2))).
  pose proof (Qfloor_le (x * 1.1 + (1 # 2))) as Hlo.
  pose proof (Qlt_floor (x * 1.1 + (1 # 2))) as Hhi.
  fold z in Hlo, Hhi. rewrite inject_Z_plus in Hhi.
  change (inject_Z 1) with 1%Q in Hhi.
  assert (Hint : forall k : Z, x = inject_Z k -> (inject_Z k <= inject_Z z)%Q).
  { intros k ->. rewrite <- Zle_Qle. unfold z.
    rewrite <- (Qfloor_Z k) at 1. apply Qfloor_resp_le. lra. }
  assert (Hz0 : (0 <= inject_Z z)%Q).
  { change 0%Q with (inject_Z 0). rewrite <- Zle_Qle. unfold z.
    rewrite <- (Qfloor_Z 0) at 1. apply Qfloor_resp_le. change (inject_Z 0) with 0%Q. lra. }
  unfold Qmin, GenericMinMax.gmin.
  destruct (100 ?= inject_Z z)%Q eqn:Hcmp.
  - apply Qeq_alt in Hcmp. exists 100%Z. split; [reflexivity |].
    change (inject_Z 100) with 100%Q.
    split; [split; lra |]. split; [lra |]. split; [lra |]. intros k Hk. lra.
  - apply Qlt_alt in Hcmp. exists 100%Z. split; [reflexivity |].
    change (inject_Z 100) with 100%Q.
    split; [split; lra |]. split; [lra |]. split; [lra |]. intros k Hk. lra.
  - apply Qgt_alt in Hcmp. exists z. split; [reflexivity |].
    split; [split; lra |]. split; [lra |]. split; [lra |].
    intros k Hk. rewrite Hk at 1. now apply Hint.
Qed.

(** X16.  Cultural adaptation keeps a valid Big Five profile valid, for
    every system and culture code; it never touches openness,
    agreeableness or neuroticism, and outside the system BIG_FIVE it
    returns the profile unchanged. *)
Theorem adaptProfile_keeps_valid (t : BigFiveTraits) (system culture : string)
    (Hvalid : PersonalityEngine.validateBigFive t = true) :
  let t' := CulturalAdapter.adaptProfile t system culture in
  PersonalityEngine.validateBigFive t' = true /\
  t'.(openness) = t.(openness) /\ t'.(agreeableness) = t.(agreeableness) /\
  t'.(neuroticism) = t.(neuroticism) /\
  (system <> "BIG_FIVE" -> t' = t).
Proof.
  destruct (valid_inv t Hvalid) as (o & c & e & a & n & -> & Ho & Hc & He & Ha & Hn).
  cbv zeta. unfold CulturalAdapter.adaptProfile. cbv zeta.
  destruct (adapted_trait c Hc) as (zc & Ec & Hzc & _).
  destruct (adapted_trait e He) as (ze & Ee & Hze & _).
  destruct (String.eqb_spec system "BIG_FIVE") as [Hs | Hs];
    destruct (String.eqb culture "JP"), (String.eqb culture "US");
    cbn [andb conscientiousness extraversion openness agreeableness neuroticism
         JS.typeof_number];
    rewrite ?Ec, ?Ee;
    (split; [apply validateBigFive_within; cbn; tauto |]);
    repeat split; try reflexivity; intros; congruence.
Qed.

Lemma adaptProfile_keeps_valid_witness :
  PersonalityEngine.validateBigFive scenario3 = true /\
  PersonalityEngine.validateBigFive (CulturalAdapter.adaptProfile scenario3 "BIG_FIVE" "JP")
  = true.
Proof.
  split; [reflexivity |].
  exact (proj1 (adaptProfile_keeps_valid scenario3 "BIG_FIVE" "JP" eq_refl)).
Defined.

(** X17.  For the system BIG_FIVE and a valid profile, the culture JP
    replaces conscientiousness, and the culture US extraversion, by an
    integer of [[0, 100]] that is at most one half below the trait and at
    most one half above 1.1 times the trait, and not below the trait when
    the trait is itself an integer; the other of the two traits is
    kept. *)
Theorem adaptProfile_rounds_up (t : BigFiveTraits)
    (Hvalid : PersonalityEngine.validateBigFive t = true) :
  let jp := CulturalAdapter.adaptProfile t "BIG_FIVE" "JP" in
  let us := CulturalAdapter.adaptProfile t "BIG_FIVE" "US" in
  (is_integer jp.(conscientiousness) /\
   within (the t.(conscientiousness) - (1 # 2)) (the t.(conscientiousness) * 1.1 + (1 # 2))
          jp.(conscientiousness) /\
   (is_integer t.(conscientiousness) ->
    within (the t.(conscientiousness)) 100 jp.(conscientiousness)) /\
   jp.(extraversion) = t.(extraversion)) /\
  (is_integer us.(extraversion) /\
   within (the t.(extraversion) - (1 # 2)) (the t.(extraversion) * 1.1 + (1 # 2))
          us.(extraversion) /\
   (is_integer t.(extraversion) ->
    within (the t.(extraversion)) 100 us.(extraversion)) /\
   us.(conscientiousness) = t.(conscientiousness)).
Proof.
  destruct (valid_inv t Hvalid) as (o & c & e & a & n & -> & Ho & Hc & He & Ha & Hn).
  cbv zeta. unfold CulturalAdapter.adaptProfile. cbv zeta.
  cbn [String.eqb Ascii.eqb Bool.eqb andb conscientiousness extraversion
       JS.typeof_number the].
  destruct (adapted_trait c Hc) as (zc & Ec & Hzc & Hlc & Huc & Hic).
  destruct (adapted_trait e He) as (ze & Ee & Hze & Hle & Hue & Hie).
  rewrite Ec, Ee. unfold is_integer. cbn [within].
  split; (split; [eexists; reflexivity |]); (split; [lra |]);
    (split; [| reflexivity]); intros [k Hk]; injection Hk as Hk.
  - specialize (Hic k Hk). lra.
  - specialize (Hie k Hk). lra.
Qed.

Lemma adaptProfile_rounds_up_witness :
  PersonalityEngine.validateBigFive scenario3 = true /\
  is_integer (CulturalAdapter.adaptProfile scenario3 "BIG_FIVE" "JP").(conscientiousness).
Proof.
  split; [reflexivity |].
  exact (proj1 (proj1 (adaptProfile_rounds_up scenario3 eq_refl))).
Defined.

(* ================================================================== *)
(** * Recommended systems *)
(* ================================================================== *)

Lemma lower_ascii_idempotent (ch : ascii) : lower_ascii (lower_ascii ch) = lower_ascii ch.
Proof.
  destruct ch as [[] [] [] [] [] [] [] []]; vm_compute; reflexivity.
Qed.

Lemma toLowerCase_idempotent (s : string) : toLowerCase (toLowerCase s) = toLowerCase s.
Proof.
  induction s as [| ch s IH]; [reflexivity |].
  cbn [toLowerCase]. now rewrite lower_ascii_idempotent, IH.
Qed.

(** Of the members of [Object.prototype], a lower-cased key can only
    name [constructor] and [__proto__]. *)
Lemma lowered_prototype_names (s : string) :
  In (toLowerCase s) Object_prototype_names ->
  toLowerCase s = "constructor" \/ toLowerCase s = "__proto__".
Proof.
  intros H. pose proof (toLowerCase_idempotent s) as Hid.
  unfold Object_prototype_names in H.
  repeat (destruct H as [H | H];
          [first [ left; symmetry; exact H
                 | right; symmetry; exact H
                 | exfalso; rewrite <- H in Hid; vm_compute in Hid; discriminate Hid ] |]).
  destruct H.
Qed.

Lemma recommendations_shape (key : string) (systems : list string) :
  get_property PersonalityEngine.recommendations key = Own systems ->
  (2 <= List.length systems <= 3)%nat /\ NoDup systems /\
  incl systems PersonalitySystemType_values /\
  In key (List.map fst PersonalityEngine.recommendations).
Proof.
  unfold get_property, PersonalityEngine.recommendations.
  cbn [find fst snd List.map].
  repeat match goal with
  | |- context [String.eqb ?k key] =>
      destruct (String.eqb_spec k key) as [<- | ?]
  end;
  try (intros H; injection H as <-;
       split; [cbn; lia |];
       split; [repeat (apply NoDup_cons;
                       [cbn; intros Hin;
                        repeat match goal with H : _ \/ _ |- _ => destruct H end;
                        try discriminate; tauto |]);
               apply NoDup_nil |];
       split; [intros x Hx; cbn in Hx |- *;
               repeat match goal with H : _ \/ _ |- _ => destruct H end;
               subst; tauto
              | cbn; tauto]).
  destruct (existsb _ _); discriminate.
Qed.

(** X18.  For an ASCII archetype name, matched without regard to case:
    unless the lower-cased name is [constructor] or [__proto__] (members
    every object literal inherits, which the lookup then hands back
    instead of a list), the result is a list of two or three distinct
    names of personality systems, and it is the default BIG_FIVE, MBTI
    when the lower-cased name is none of the nine known archetypes. *)
Theorem getRecommendedSystem_shape (characterType : string)
    (Hascii : is_ascii_string characterType = true) :
  let key := toLowerCase characterType in
  let r := PersonalityEngine.getRecommendedSystemForCharacterType characterType in
  (key = "constructor" \/ key = "__proto__" -> r = PersonalityEngine.PrototypeMember key) /\
  (key <> "constructor" -> key <> "__proto__" ->
   exists systems : list string,
     r = PersonalityEngine.SystemList systems /\
     (2 <= List.length systems <= 3)%nat /\ NoDup systems /\
     incl systems PersonalitySystemType_values /\
     (~ In key (List.map fst PersonalityEngine.recommendations) ->
      systems = ["BIG_FIVE"; "MBTI"])) /\
  PersonalityEngine.getRecommendedSystemForCharacterType key = r.
Proof.
  cbv zeta. unfold PersonalityEngine.getRecommendedSystemForCharacterType.
  rewrite toLowerCase_idempotent.
  split; [| split; [| reflexivity]].
  - intros [-> | ->]; reflexivity.
  - intros Hc Hp.
    destruct (get_property PersonalityEngine.recommendations (toLowerCase characterType))
      as [systems | |] eqn:Hget.
    + destruct (recommendations_shape _ _ Hget) as (Hlen & Hnd & Hincl & Hin).
      exists systems. repeat split; try assumption; try tauto.
    + exfalso. unfold get_property in Hget.
      destruct (find _ _); [discriminate Hget |].
      destruct (existsb _ _) eqn:Hex; [| discriminate Hget].
      apply existsb_exists in Hex. destruct Hex as (x & Hx & Heq).
      apply String.eqb_eq in Heq. subst x.
      destruct (lowered_prototype_names _ Hx); contradiction.
    + exists ["BIG_FIVE"; "MBTI"].
      split; [reflexivity |]. split; [cbn; lia |].
      split; [repeat (apply NoDup_cons;
                      [cbn; intros Hin;
                       repeat match goal with H : _ \/ _ |- _ => destruct H end;
                       try discriminate; tauto |]);
              apply NoDup_nil |].
      split; [intros x Hx; cbn in Hx |- *;
              repeat match goal with H : _ \/ _ |- _ => destruct H end;
              subst; tauto
             | reflexivity].
Qed.

Lemma getRecommendedSystem_shape_witness :
  is_ascii_string "Villain" = true /\
  PersonalityEngine.getRecommendedSystemForCharacterType "villain"
  = PersonalityEngine.getRecommendedSystemForCharacterType "Villain".
Proof.
  split; [reflexivity |].
  exact (proj2 (proj2 (getRecommendedSystem_shape "Villain" eq_refl))).
Defined.

Remark getRecommendedSystem_examples :
  PersonalityEngine.getRecommendedSystemForCharacterType "ANTIHERO"
  = PersonalityEngine.SystemList ["DARK_TRIAD"; "HEXACO"; "TCI"] /\
  PersonalityEngine.getRecommendedSystemForCharacterType "wizard"
  = PersonalityEngine.SystemList ["BIG_FIVE"; "MBTI"] /\
  PersonalityEngine.getRecommendedSystemForCharacterType "Constructor"
  = PersonalityEngine.PrototypeMember "constructor".
Proof. repeat split. Qed.

(* ================================================================== *)
(** * Research validation *)
(* ================================================================== *)

Lemma check_loop (numberToString : Q -> string) (outlier : value -> bool)
    (text : string -> value -> string) (entries : list (string * value))
    (warnings : list string) :
  fold_left (ResearchValidator.check outlier text) entries warnings
  = warnings
    ++ List.map (fun entry => text (fst entry) (snd entry))
         (filter (fun entry => typeof_number (snd entry) && outlier (snd entry)) entries).
Proof.
  revert warnings. induction entries as [| entry entries IH]; intros warnings.
  - cbn. now rewrite app_nil_r.
  - cbn [fold_left filter]. unfold ResearchValidator.check at 2. cbv zeta.
    destruct (typeof_number (snd entry) && outlier (snd entry)).
    + rewrite IH. cbn [List.map]. now rewrite <- app_assoc.
    + apply IH.
Qed.

Lemma is_outlier_false (v : value) :
  is_outlier v = false <-> within 5 95 v \/ v = NaN \/ v = Undefined.
Proof.
  unfold is_outlier, ResearchValidator.outside.
  destruct v as [q | |]; cbn [JS.typeof_number JS.lt JS.gt andb within].
  - destruct (Qle_bool_cases 5 q) as [[-> H5] | [-> H5]];
      destruct (Qle_bool_cases q 95) as [[-> H95] | [-> H95]]; cbn [negb orb];
      split; intros H; try discriminate; try reflexivity; try tauto;
      destruct H as [[? ?] | [H | H]]; try discriminate; exfalso; lra.
  - split; [intros _; right; left; reflexivity | reflexivity].
  - split; [intros _; right; right; reflexivity | reflexivity].
Qed.

Lemma filter_nil_iff {A : Type} (f : A -> bool) (l : list A) :
  filter f l = [] <-> Forall (fun x => f x = false) l.
Proof.
  induction l as [| x l IH]; cbn [filter].
  - split; [intros _; apply Forall_nil | reflexivity].
  - rewrite Forall_cons_iff. destruct (f x).
    + split; [discriminate | intros [H _]; discriminate H].
    + rewrite IH. tauto.
Qed.

Lemma typical_and_valid (v : value) :
  within 0 100 v /\ (within 5 95 v \/ v = NaN \/ v = Undefined) <-> within 5 95 v.
Proof.
  destruct v as [q | |]; cbn [within].
  - split.
    + intros [_ [H | [H | H]]]; [exact H | discriminate H | discriminate H].
    + intros H. split; [split; lra | left; exact H].
  - tauto.
  - tauto.
Qed.

Lemma filter_entries (read : string -> value) (test : value -> bool)
    (names : list string) :
  List.length
    (filter (fun entry : string * value => typeof_number (snd entry) && test (snd entry))
            (List.map (fun trait => (trait, read trait)) names))
  = List.length (filter (fun v => typeof_number v && test v) (List.map read names)).
Proof.
  induction names as [| name names IH]; [reflexivity |].
  cbn [List.map filter snd].
  destruct (typeof_number (read name) && test (read name)); cbn [List.length];
    now rewrite IH.
Qed.

Lemma valid_iff_Forall (t : BigFiveTraits) :
  PersonalityEngine.validateBigFive t = true <-> Forall (within 0 100) (fields t).
Proof.
  rewrite validateBigFive_within. unfold fields.
  split.
  - intros (Ho & Hc & He & Ha & Hn). repeat (apply Forall_cons; [assumption |]).
    apply Forall_nil.
  - intros H.
    repeat match goal with
    | H : Forall _ (_ :: _) |- _ => apply Forall_cons_iff in H; destruct H as [? H]
    end.
    repeat split; assumption.
Qed.

Lemma Forall_both {A : Type} (P Q R : A -> Prop) (l : list A) :
  (forall x, P x /\ Q x <-> R x) -> (Forall P l /\ Forall Q l <-> Forall R l).
Proof.
  intros H. induction l as [| x l IH].
  - split; [intros _; apply Forall_nil | intros _; split; apply Forall_nil].
  - rewrite !Forall_cons_iff, <- IH, <- H. tauto.
Qed.

(** X19.  On a Big Five object and the system BIG_FIVE, the research
    validator issues one warning per trait that is a number below 5 or
    above 95, at most five; there is no warning exactly when every trait
    is within [[5, 95]], [NaN] or absent, so a profile without warnings is
    valid only if no trait is [NaN] or absent. *)
Theorem validateProfile_BigFive (numberToString : Q -> string) (t : BigFiveTraits) :
  let ws :=
    ResearchValidator.validateProfile numberToString
      (ResearchValidator.BigFiveObject t) "BIG_FIVE" in
  List.length ws = List.length (filter is_outlier (fields t)) /\
  (List.length ws <= 5)%nat /\
  (ws = [] <-> Forall (fun v => within 5 95 v \/ v = NaN \/ v = Undefined) (fields t)) /\
  (ws = [] /\ PersonalityEngine.validateBigFive t = true <->
   Forall (within 5 95) (fields t)).
Proof.
  cbv zeta.
  set (ws := ResearchValidator.validateProfile numberToString
               (ResearchValidator.BigFiveObject t) "BIG_FIVE").
  assert (Hlen : List.length ws = List.length (filter is_outlier (fields t))).
  { unfold ws, ResearchValidator.validateProfile.
    cbn [String.eqb Ascii.eqb Bool.eqb]. cbv zeta.
    rewrite (check_loop numberToString). cbn [app]. rewrite length_map.
    etransitivity;
      [apply (filter_entries
                (ResearchValidator.get (ResearchValidator.BigFiveObject t))
                (ResearchValidator.outside 5 95)
                ["openness"; "conscientiousness"; "extraversion"; "agreeableness";
                 "neuroticism"]) |].
    cbn [List.map].
    change (ResearchValidator.get (ResearchValidator.BigFiveObject t) "openness")
      with t.(openness).
    change (ResearchValidator.get (ResearchValidator.BigFiveObject t) "conscientiousness")
      with t.(conscientiousness).
    change (ResearchValidator.get (ResearchValidator.BigFiveObject t) "extraversion")
      with t.(extraversion).
    change (ResearchValidator.get (ResearchValidator.BigFiveObject t) "agreeableness")
      with t.(agreeableness).
    change (ResearchValidator.get (ResearchValidator.BigFiveObject t) "neuroticism")
      with t.(neuroticism).
    reflexivity. }
  clearbody ws.
  assert (Hnil : ws = [] <->
            Forall (fun v => within 5 95 v \/ v = NaN \/ v = Undefined) (fields t)).
  { rewrite <- length_zero_iff_nil, Hlen, length_zero_iff_nil, filter_nil_iff.
    split; intros H; (eapply Forall_impl; [| exact H]); intros v Hv;
      now apply is_outlier_false. }
  split; [exact Hlen |]. split.
  - rewrite Hlen. etransitivity; [apply filter_length_le | reflexivity].
  - split; [exact Hnil |].
    rewrite Hnil, valid_iff_Forall, and_comm.
    apply Forall_both. intros v. apply typical_and_valid.
Qed.

(** X20.  For every valid input, the research validator run on the
    Dark Triad profile of the engine issues at most two warnings and
    never one for psychopathy: there is no warning exactly when
    machiavellianism and narcissism are both at most 80. *)
Theorem validateProfile_direct_darkTriad (numberToString : Q -> string)
    (t : BigFiveTraits) (Hvalid : PersonalityEngine.validateBigFive t = true) :
  let d := PersonalityEngine.convertBigFiveToDarkTriad t in
  let ws :=
    ResearchValidator.validateProfile numberToString
      (ResearchValidator.DarkTriadObject d) "DARK_TRIAD" in
  (List.length ws <= 2)%nat /\
  (ws = [] <->
   (the d.(DarkTriad.machiavellianism) <= 80 /\ the d.(DarkTriad.narcissism) <= 80)%Q) /\
  (the d.(DarkTriad.psychopathy) <= 80)%Q.
Proof.
  destruct (valid_inv t Hvalid) as (o & c & e & a & n & -> & Ho & Hc & He & Ha & Hn).
  cbv zeta.
  destruct (direct_scores_bounds o c e a n Ho Hc He Ha Hn)
    as (m & r & p & -> & Hm & Hr & Hp).
  unfold ResearchValidator.validateProfile.
  cbn [String.eqb Ascii.eqb Bool.eqb]. cbv zeta.
  rewrite (check_loop numberToString).
  cbn [app List.map filter fst snd ResearchValidator.get ResearchValidator.darkTriad_prop
       String.eqb Ascii.eqb Bool.eqb
       DarkTriad.machiavellianism DarkTriad.narcissism DarkTriad.psychopathy
       JS.typeof_number andb JS.gt JS.lt the].
  destruct (Qle_bool_cases p 80) as [[-> Hp80] | [-> Hp80]]; [| exfalso; lra].
  destruct (Qle_bool_cases m 80) as [[-> Hm80] | [-> Hm80]];
    destruct (Qle_bool_cases r 80) as [[-> Hr80] | [-> Hr80]];
    cbn [negb filter List.map List.length fst snd];
    (split; [lia |]); (split; [| lra]);
    (split; [intros H; try discriminate H; split; lra
            | intros [? ?]; try reflexivity; exfalso; lra]).
Qed.

Lemma validateProfile_direct_darkTriad_witness :
  PersonalityEngine.validateBigFive principled_schemer = true /\
  (the (DarkTriad.psychopathy (PersonalityEngine.convertBigFiveToDarkTriad principled_schemer))
   <= 80)%Q.
Proof.
  split; [reflexivity |].
  exact (proj2 (proj2 (validateProfile_direct_darkTriad (fun _ => "") principled_schemer
                         eq_refl))).
Defined.

(* ================================================================== *)
(** * Behaviour patterns and conflict sources *)
(* ================================================================== *)

Lemma high_low_cases (v : value) :
  ((v >? 70) = true /\ (v <? 30) = false) \/
  ((v >? 70) = false /\ (v <? 30) = true) \/
  ((v >? 70) = false /\ (v <? 30) = false).
Proof.
  destruct v as [q | |]; cbn [JS.gt JS.lt]; [| tauto | tauto].
  destruct (Qle_bool_cases q 70) as [[-> H70] | [-> H70]];
    destruct (Qle_bool_cases 30 q) as [[-> H30] | [-> H30]]; cbn [negb];
    try tauto.
  exfalso. lra.
Qed.

Lemma distinct_NoDup (l : list string) : distinct l = true -> NoDup l.
Proof.
  induction l as [| x l IH]; cbn [distinct]; intros H; [apply NoDup_nil |].
  apply andb_true_iff in H. destruct H as [Hx Hl].
  apply NoDup_cons; [| now apply IH].
  intros Hin. apply negb_true_iff in Hx.
  assert (Hex : existsb (String.eqb x) l = true).
  { apply existsb_exists. exists x. split; [exact Hin | apply String.eqb_refl]. }
  congruence.
Qed.

Lemma patterns_ok_sound (l : list string) :
  patterns_ok l = true ->
  (1 <= List.length l <= 3)%nat /\ NoDup l /\
  (In balanced_pattern l <-> l = [balanced_pattern]).
Proof.
  unfold patterns_ok. rewrite !andb_true_iff.
  intros [[[H1 H3] Hd] Hb].
  apply Nat.leb_le in H1. apply Nat.leb_le in H3.
  split; [lia |]. split; [now apply distinct_NoDup |].
  apply Bool.eqb_prop in Hb. split.
  - intros Hin.
    assert (Hex : existsb (String.eqb balanced_pattern) l = true).
    { apply existsb_exists. exists balanced_pattern.
      split; [exact Hin | apply String.eqb_refl]. }
    rewrite Hex in Hb. destruct l as [| x [| y l]]; try discriminate Hb.
    symmetry in Hb. apply String.eqb_eq in Hb. now subst.
  - intros ->. left. reflexivity.
Qed.

(** X21.  [predictBehaviorPatterns] never returns an empty list and
    never more than three patterns, none twice; the balanced pattern is
    present exactly when it is the only one.  This holds for every
    input, [NaN] and absent traits included. *)
Theorem predictBehaviorPatterns_shape (traits : CharacterTraits) :
  let l := TraitProcessor.predictBehaviorPatterns traits in
  (1 <= List.length l <= 3)%nat /\ NoDup l /\
  (In balanced_pattern l <-> l = [balanced_pattern]).
Proof.
  cbv zeta. apply patterns_ok_sound.
  unfold TraitProcessor.predictBehaviorPatterns. cbv zeta.
  set (o := traits.(Character.openness)). set (c := traits.(Character.conscientiousness)).
  set (e := traits.(Character.extraversion)). set (a := traits.(Character.agreeableness)).
  set (s := traits.(Character.emotional_stability)).
  assert (H13 : ((o >? 70) && (e >? 70)) && ((e <? 30) && (o <? 30)) = false).
  { destruct (high_low_cases o) as [[-> ->] | [[-> ->] | [-> ->]]];
      destruct (e >? 70), (e <? 30); reflexivity. }
  assert (H24 : ((c >? 70) && (a >? 70)) && ((a <? 30) && (s <? 30)) = false).
  { destruct (high_low_cases a) as [[-> ->] | [[-> ->] | [-> ->]]];
      destruct (c >? 70), (s <? 30); reflexivity. }
  assert (H25 : ((c >? 70) && (a >? 70)) && ((o >? 70) && (c <? 30)) = false).
  { destruct (high_low_cases c) as [[-> ->] | [[-> ->] | [-> ->]]];
      destruct (a >? 70), (o >? 70); reflexivity. }
  assert (H35 : ((e <? 30) && (o <? 30)) && ((o >? 70) && (c <? 30)) = false).
  { destruct (high_low_cases o) as [[-> ->] | [[-> ->] | [-> ->]]];
      destruct (e <? 30), (c <? 30); reflexivity. }
  assert (H56 : ((o >? 70) && (c <? 30)) && ((c >? 70) && (s <? 30)) = false).
  { destruct (high_low_cases c) as [[-> ->] | [[-> ->] | [-> ->]]];
      destruct (o >? 70), (s <? 30); reflexivity. }
  revert H13 H24 H25 H35 H56.
  generalize ((o >? 70) && (e >? 70)), ((c >? 70) && (a >? 70)),
    ((e <? 30) && (o <? 30)), ((a <? 30) && (s <? 30)),
    ((o >? 70) && (c <? 30)), ((c >? 70) && (s <? 30)).
  intros p1 p2 p3 p4 p5 p6.
  destruct p1, p2, p3, p4, p5, p6; cbn [andb]; intros H13 H24 H25 H35 H56;
    try discriminate; vm_compute; reflexivity.
Qed.

Lemma conflict_test_symmetric (x y : value) :
  (Math_abs (x - y) >? 40) = (Math_abs (y - x) >? 40).
Proof.
  destruct x as [a | |], y as [b | |]; try reflexivity.
  cbn [JS.sub JS.lift2 JS.Math_abs JS.gt JS.lt]. f_equal.
  apply Qleb_comp; [| reflexivity].
  rewrite <- (Qabs_opp (a - b)). apply Qabs_wd. ring.
Qed.

Lemma conflict_test_self (x : value) : (Math_abs (x - x) >? 40) = false.
Proof.
  destruct x as [a | |]; try reflexivity.
  cbn [JS.sub JS.lift2 JS.Math_abs JS.gt JS.lt].
  apply negb_false_iff, Qle_bool_iff.
  assert (H : (a - a == 0)%Q) by ring. rewrite H. cbn. discriminate.
Qed.

(** X22.  [predictConflictSources] does not depend on the order of the
    two characters, returns between one and five entries, and for a
    character compared with itself returns the no-conflict entry
    alone; every input, [NaN] and absent traits included. *)
Theorem predictConflictSources_symmetric (a b : CharacterTraits) :
  TraitProcessor.predictConflictSources a b = TraitProcessor.predictConflictSources b a /\
  (1 <= List.length (TraitProcessor.predictConflictSources a b) <= 5)%nat /\
  TraitProcessor.predictConflictSources a a = [no_conflict].
Proof.
  unfold TraitProcessor.predictConflictSources. cbv zeta.
  rewrite !conflict_test_self.
  rewrite (conflict_test_symmetric b.(Character.openness)),
    (conflict_test_symmetric b.(Character.conscientiousness)),
    (conflict_test_symmetric b.(Character.extraversion)),
    (conflict_test_symmetric b.(Character.agreeableness)),
    (conflict_test_symmetric b.(Character.emotional_stability)).
  split; [reflexivity |]. split; [| reflexivity].
  destruct (Math_abs (a.(Character.openness) - b.(Character.openness)) >? 40),
    (Math_abs (a.(Character.conscientiousness) - b.(Character.conscientiousness)) >? 40),
    (Math_abs (a.(Character.extraversion) - b.(Character.extraversion)) >? 40),
    (Math_abs (a.(Character.agreeableness) - b.(Character.agreeableness)) >? 40),
    (Math_abs (a.(Character.emotional_stability) - b.(Character.emotional_stability)) >? 40);
    cbn [app List.length Nat.eqb]; lia.
Qed.

(* ================================================================== *)
(** * When the confidences are extreme *)
(* ================================================================== *)



